(** * Toll-transaction test-data generator: model and verified properties

    Shallow embedding of [Python/traffic_generator.py] and of the
    senders and [main] of [Python/servicebus_send.py].

    Conventions of the model:
    - Python [int] is [Z]; [str] is [string]; a [list] is a [list];
      [None]-or-value is [option].
    - The generator is sequential imperative code over three entropy
      sources (Python's [random], NumPy's [np.random], the OS randomness
      behind [uuid.uuid4]), the output directories, the queue and the
      console.  It is written in a state-and-exception monad [M] over a
      [World]; every theorem quantifies over the whole world, hence over
      every possible sequence of random draws.
    - Pixel data is not interpreted: an image carries its mode, its size
      and the ordered list of imaging-library calls (PIL, OpenCV, NumPy)
      that produced it.
    - Floating point is idealised by exact rationals (weights, [random()],
      coordinates).
    - Asset loading and disk writes are assumed to succeed (the template
      image and the font are present, the directories are writable). *)

From Stdlib Require Import List String Ascii ZArith NArith QArith Qround Lia Bool.
From Stdlib Require Import DecimalString Sorted Lqa.
Import ListNotations.

#[local] Open Scope string_scope.
#[local] Open Scope list_scope.
#[local] Open Scope Z_scope.

(** ** Images as the imaging libraries see them *)

(** PIL modes that matter to the NumPy shape test of [apply_effects]:
    [L] is a 2-D array, [RGB] has 3 channels, [RGBA] has 4. *)
Inductive Mode := L | RGB | RGBA.

Definition Box := (Z * Z * Z * Z)%type.

(** One imaging-library call that determines pixel content.  The x
    coordinate of a text is [x0 + (x1 - x0 - textlength(text, font)) // 2];
    the font metrics are an external asset, so the call keeps the span
    [(x0, x1)] it centres the text in. *)
Inductive Paint :=
| Opened (path : string)
| Converted (mode : Mode)
| Rectangle (xy : Box) (fill : Z * Z * Z) (outline : string)
| CentredText (x0 x1 y : Z) (text fill font : string) (size : Z)
| CvtColor (code : string)
| GaussianBlur (kw kh sigma : Z)
| AddNoise (low high : Z) (sample : N)
| Line (x1 y1 x2 y2 : Z) (fill : string) (width : Z)
| SnowBlend (low high : Z) (sample : N) (thresh maxval : Z) (alpha beta gamma : Q)
| Cropped (box : Box)
| Resized (w h : Z) (resample : string).

Record Image := mkImage {
  mode : Mode;
  width : N;
  height : N;
  pixels : list Paint
}.

(** [np.array(image).shape] *)
Definition shape (img : Image) : list N :=
  match mode img with
  | L => [height img; width img]
  | RGB => [height img; width img; 3%N]
  | RGBA => [height img; width img; 4%N]
  end.

Definition paint (p : Paint) (img : Image) : Image :=
  mkImage (mode img) (width img) (height img) (pixels img ++ [p]).

Definition with_mode (m : Mode) (img : Image) : Image :=
  mkImage m (width img) (height img) (pixels img).

(** ** Records of the output *)

(** An entry of a record's ["vehicle_images"] list. *)
Record VehicleImage := mkVehicleImage {
  image_file : string;
  image_type : string
}.

Record TransactionRecord := mkRecord {
  LaneTransId : string;
  TransactionDt : Z;
  LocationId : Z;
  LocationTypeId : Z;
  LaneId : Z;
  PlateNumber : string;
  PlateState : string;
  TagAgencyId : option string;
  TagNumber : option string;
  VehicleClassId : Z;
  AxleCount : Z;
  CameraId : Z;
  CameraOrientation : string;
  DirectionId : Z;
  Latitude : Q;
  Longitude : Q;
  vehicle_images : list VehicleImage;
  plate_types : option string
}.

(** Python exceptions, by class name. *)
Inductive Exn := Exception (class : string).

Definition IndexError := Exception "IndexError".
Definition KeyError := Exception "KeyError".
Definition ValueError := Exception "ValueError".
Definition UnboundLocalError := Exception "UnboundLocalError".
Definition cv2_error := Exception "cv2.error".

Definition Exn_eqb (a b : Exn) : bool :=
  match a, b with Exception x, Exception y => String.eqb x y end.

(** ** Sequential code with state and exceptions *)

Inductive Outcome (W A : Type) :=
| Returned (a : A) (w : W)
| Raised (e : Exn) (w : W).
Arguments Returned {W A} a w.
Arguments Raised {W A} e w.

Definition M (W A : Type) := W -> Outcome W A.

Definition ret {W A} (a : A) : M W A := fun w => Returned a w.

Definition bind {W A B} (m : M W A) (k : A -> M W B) : M W B :=
  fun w => match m w with
           | Returned a w' => k a w'
           | Raised e w' => Raised e w'
           end.

Definition raise {W A} (e : Exn) : M W A := fun w => Raised e w.

(** [try: m  except e: handler] *)
Definition try_except {W A} (m : M W A) (e : Exn) (handler : M W A) : M W A :=
  fun w => match m w with
           | Returned a w' => Returned a w'
           | Raised e' w' => if Exn_eqb e' e then handler w' else Raised e' w'
           end.

Notation "x <- c ;; k" := (bind c (fun x => k))
  (at level 61, c at next level, right associativity).
Notation "c ;;; k" := (bind c (fun _ => k))
  (at level 61, right associativity).

(** [for x in xs: acc = body(x, acc)] *)
Fixpoint for_each {W A S} (xs : list A) (body : A -> S -> M W S) (acc : S) : M W S :=
  match xs with
  | [] => ret acc
  | x :: xs' => acc' <- body x acc ;; for_each xs' body acc'
  end.

(** How a loop body ends: it falls through to the next item or breaks. *)
Inductive Flow (S : Type) := Next (acc : S) | Break (acc : S).
Arguments Next {S} acc.
Arguments Break {S} acc.

(** [for x in xs: ...] with [break] *)
Fixpoint for_each_break {W A S} (xs : list A) (body : A -> S -> M W (Flow S))
         (acc : S) : M W S :=
  match xs with
  | [] => ret acc
  | x :: xs' =>
      f <- body x acc ;;
      match f with
      | Next acc' => for_each_break xs' body acc'
      | Break acc' => ret acc'
      end
  end.

(** [range(start, stop)] *)
Definition range (start stop : Z) : list Z :=
  map (fun i => start + Z.of_nat i) (seq 0 (Z.to_nat (stop - start))).

(** The characters of a Python [str], in order. *)
Definition chars (s : string) : list ascii := list_ascii_of_string s.

(** [s += c] *)
Definition add_char (s : string) (c : ascii) : string :=
  String.append s (String c "").

(** [str(i)] and [f"{i}"] for an [int] *)
Definition str (i : Z) : string := NilZero.string_of_int (Z.to_int i).

(** [f"{i:04d}"] for a non-negative [int]: zero padding to four digits. *)
Definition format_04d (i : Z) : string :=
  let s := str i in
  String.append (string_of_list_ascii (repeat "0"%char (4 - String.length s))) s.

(** ** The world the generator runs in *)

Inductive Source := PyRandom | NumPy | OsUrandom.

Definition Source_eqb (a b : Source) : bool :=
  match a, b with
  | PyRandom, PyRandom | NumPy, NumPy | OsUrandom, OsUrandom => true
  | _, _ => false
  end.

Record World := mkWorld {
  tape : Source -> nat -> N;          (* the draws each source will give *)
  cursor : Source -> nat;             (* how many each has given so far *)
  asset : string -> Image;            (* what [Image.open] reads *)
  saved : list (string * Image);      (* [img.save(path)] calls, oldest first *)
  dumped : list (string * list TransactionRecord);
                                      (* [json.dump(batch, file)] per file, oldest first *)
  sent : list TransactionRecord;      (* Service Bus messages, oldest first *)
  stdout : list string                (* printed lines, oldest first *)
}.

Definition Gen := M World.

(** *** Primitive effects *)

(** The world after one more draw from a source. *)
Definition advance (s : Source) (w : World) : World :=
  mkWorld (tape w)
    (fun s' => if Source_eqb s s' then S (cursor w s') else cursor w s')
    (asset w) (saved w) (dumped w) (sent w) (stdout w).

Definition draw (s : Source) : Gen N := fun w =>
  Returned (tape w s (cursor w s)) (advance s w).

Definition Image_open (path : string) : Gen Image := fun w =>
  Returned (asset w path) w.

Definition Image_save (img : Image) (path : string) : Gen unit := fun w =>
  Returned tt
    (mkWorld (tape w) (cursor w) (asset w) (saved w ++ [(path, img)])
       (dumped w) (sent w) (stdout w)).

Definition json_dump_to (file_name : string) (batch : list TransactionRecord) : Gen unit :=
  fun w =>
  Returned tt
    (mkWorld (tape w) (cursor w) (asset w) (saved w)
       (dumped w ++ [(file_name, batch)]) (sent w) (stdout w)).

Definition sender_send_messages (r : TransactionRecord) : Gen unit := fun w =>
  Returned tt
    (mkWorld (tape w) (cursor w) (asset w) (saved w) (dumped w)
       (sent w ++ [r]) (stdout w)).

Definition print (line : string) : Gen unit := fun w =>
  Returned tt
    (mkWorld (tape w) (cursor w) (asset w) (saved w) (dumped w) (sent w)
       (stdout w ++ [line])).

(** *** Python's [random] module *)

(** [random.random()]: a multiple of [2^-53] in [[0, 1)]. *)
Definition random_random : Gen Q :=
  k <- draw PyRandom ;;
  ret (Z.of_N (k mod 2 ^ 53)%N # (2 ^ 53)).

(** [random.randint(a, b)]: [a + randbelow(b - a + 1)], or [ValueError]
    on an empty range. *)
Definition random_randint (a b : Z) : Gen Z :=
  if b <? a then raise ValueError
  else k <- draw PyRandom ;; ret (a + Z.of_N k mod (b - a + 1)).

(** [randbelow(n)] from a draw [k]: each of [0 .. n-1] for equally
    many draws. *)
Definition randbelow (k : N) (n : nat) : nat := N.to_nat (k mod N.of_nat n).

(** [random.choice(seq)]: [seq[randbelow(len(seq))]], or [IndexError] on
    an empty sequence. *)
Definition random_choice {A} (seq : list A) : Gen A :=
  match seq with
  | [] => raise IndexError
  | x :: _ =>
      k <- draw PyRandom ;;
      ret (nth (randbelow k (List.length seq)) seq x)
  end.

(** [random.uniform(a, b)]: [a + (b - a) * random()] *)
Definition random_uniform (a b : Q) : Gen Q :=
  r <- random_random ;; ret (a + (b - a) * r)%Q.

(** [itertools.accumulate(weights)] *)
Fixpoint accumulate_from (total : Q) (ws : list Q) : list Q :=
  match ws with
  | [] => []
  | x :: ws' => (total + x)%Q :: accumulate_from (total + x)%Q ws'
  end.

Definition accumulate (ws : list Q) : list Q :=
  match ws with
  | [] => []
  | x :: ws' => x :: accumulate_from x ws'
  end.

(** [bisect.bisect_right(a, x, lo, hi)]: binary search; the interval
    shrinks at every turn, so [hi - lo] turns are enough. *)
Fixpoint bisect_loop (turns : nat) (a : list Q) (x : Q) (lo hi : nat) : nat :=
  match turns with
  | O => lo
  | S turns' =>
      if (lo <? hi)%nat then
        let mid := ((lo + hi) / 2)%nat in
        if negb (Qle_bool (nth mid a 0%Q) x)
        then bisect_loop turns' a x lo mid
        else bisect_loop turns' a x (mid + 1)%nat hi
      else lo
  end.

Definition bisect (a : list Q) (x : Q) (lo hi : nat) : nat :=
  bisect_loop (hi - lo) a x lo hi.

(** [random.choices(population, weights=weights, k=1)[0]] *)
Definition random_choices {A} (population : list A) (weights : list Q) : Gen A :=
  let n := List.length population in
  let cum_weights := accumulate weights in
  if negb (List.length cum_weights =? n)%nat then raise ValueError
  else
    match rev cum_weights with
    | [] => raise IndexError
    | total :: _ =>
        if Qle_bool total 0 then raise ValueError
        else
          r <- random_random ;;
          match nth_error population (bisect cum_weights (r * total)%Q 0 (n - 1)) with
          | Some x => ret x
          | None => raise IndexError
          end
    end.

(** [round(x, 6)], on the exact value. *)
Definition round6 (x : Q) : Q := Qfloor (x * 1000000 + (1 # 2))%Q # 1000000.

(** [os.path.join(a, b)] for a relative [b] without drive, with the
    separator of the platform of the UNC output directories. *)
Definition os_sep : ascii := "\"%char.

Definition os_path_join (a b : string) : string :=
  match rev (chars a) with
  | [] => b
  | c :: _ =>
      if (Ascii.eqb c os_sep || Ascii.eqb c "/"%char)%bool then String.append a b
      else String.append a (String os_sep b)
  end.

(** [uuid.uuid4()]: 16 random bytes with the version and variant bits
    set; [hex32] is ['%032x' % int]. *)
Definition uuid_uuid4 : Gen N :=
  r <- draw OsUrandom ;;
  let int := (r mod 2 ^ 128)%N in
  let int := N.ldiff int (N.shiftl 0xc000 48) in
  let int := N.lor int (N.shiftl 0x8000 48) in
  let int := N.ldiff int (N.shiftl 0xf000 64) in
  ret (N.lor int (N.shiftl 4 76)).

Definition hex_digit (d : N) : ascii :=
  nth (N.to_nat d) (chars "0123456789abcdef") "0"%char.

Fixpoint hex_width (width : nat) (n : N) : string :=
  match width with
  | O => ""
  | S width' =>
      String.append (hex_width width' (n / 16)%N) (String (hex_digit (n mod 16)%N) "")
  end.

Definition uuid_hex (u : N) : string := hex_width 32 u.

Definition uuid_str (u : N) : string :=
  let h := uuid_hex u in
  String.concat "-"
    [substring 0 8 h; substring 8 4 h; substring 12 4 h; substring 16 4 h;
     substring 20 12 h].

(** ** [traffic_generator.py] *)

Definition VEHICLE_IMAGES_DIR := "".
Definition OUTPUT_IMAGES_DIR := "\\WIN02\TollHost\vehicle_images".
Definition TRXDATA_DIR := "\\WIN02\TollHost\trxdata".

Definition USE_AZURE_SERVICE_BUS := false.
Definition QUEUE_NAME := "samplequeue".

(** A value of the [PLATE_STATES] dictionary; the key ["plate_types"] is
    optional. *)
Record PlateStateInfo := mkPlateState {
  full_name : string;
  abbreviation : string;
  probability : Q;
  format : string;
  state_plate_types : option (list string)
}.

(** The dictionary, in insertion order. *)
Definition PLATE_STATES : list (string * PlateStateInfo) :=
  [ ("Illinois", mkPlateState "Illinois" "IL" (1 # 10) "A######"
       (Some ["Passenger"; "Commercial"; "Firefighter"; "Doctor"]));
    ("Pennsylvania", mkPlateState "Pennsylvania" "PA" (6 # 10) "AAA####" None);
    ("New Jersey", mkPlateState "New Jersey" "NJ" (1 # 10) "A##AAA" None);
    ("New York", mkPlateState "New York" "NY" (5 # 100) "AAA####" None);
    ("Maryland", mkPlateState "Maryland" "MD" (5 # 100) "AAA###" None);
    ("Ohio", mkPlateState "Ohio" "OH" (1 # 10) "AAA####" None) ].

Definition FONT_PATH := "arialbd.ttf".
Definition PLATE_FONT_SIZE := 24.
Definition STATE_FONT_SIZE := 9.
Definition PLATE_PADDING := 5.

(** [datetime] values are microseconds on the proleptic time line;
    [timedelta.days] floors, [int(delta.total_seconds())] truncates. *)
Definition timedelta_days (delta : Z) : Z := delta / 86400000000.
Definition int_total_seconds (delta : Z) : Z := Z.quot delta 1000000.

Definition random_date (start end_ : Z) : Gen Z :=
  let delta := end_ - start in
  random_seconds <- random_randint 0 (int_total_seconds delta) ;;
  ret (start + random_seconds * 1000000).

Definition uppercase := "ABCDEFGHIJKLMNOPQRSTUVWXYZ".
Definition digits := "0123456789".

Definition random_plate_number (format_string : string) : Gen string :=
  for_each (chars format_string)
    (fun char plate_number =>
       if Ascii.eqb char "A" then
         c <- random_choice (chars uppercase) ;; ret (add_char plate_number c)
       else if Ascii.eqb char "#" then
         c <- random_choice (chars digits) ;; ret (add_char plate_number c)
       else ret plate_number)
    "".

(** [d[key]] on a dictionary kept in insertion order *)
Fixpoint dict_get {V} (d : list (string * V)) (key : string) : option V :=
  match d with
  | [] => None
  | (k, v) :: d' => if String.eqb k key then Some v else dict_get d' key
  end.

Definition random_plate_state : Gen PlateStateInfo :=
  state <- random_choices (map fst PLATE_STATES)
             (map (fun kv => probability (snd kv)) PLATE_STATES) ;;
  match dict_get PLATE_STATES state with
  | Some info => ret info
  | None => raise KeyError
  end.

(** [cv2.cvtColor(img, cv2.COLOR_GRAY2RGB)] accepts one channel only. *)
Definition cvtColor_GRAY2RGB (img : Image) : Gen Image :=
  match mode img with
  | L => ret (paint (CvtColor "COLOR_GRAY2RGB") (with_mode RGB img))
  | _ => raise cv2_error
  end.

(** The first step of [apply_effects]: the array of the image, reduced
    to one channel when its shape is [(h, w, 3)]. *)
Definition ensure_grayscale (image : Image) : Image :=
  match shape image with
  | [_; _; 3%N] => paint (CvtColor "COLOR_RGB2GRAY") (with_mode L image)
  | _ => image
  end.

(** One rain streak: four draws, then [draw.line]. *)
Definition rain_streak (img_pil : Image) : Gen Image :=
  x1 <- random_randint 0 (Z.of_N (width img_pil)) ;;
  y1 <- random_randint 0 (Z.of_N (height img_pil)) ;;
  dx <- random_randint (-10) 10 ;;
  dy <- random_randint 20 50 ;;
  let x2 := x1 + dx in
  let y2 := y1 + dy in
  ret (paint (Line x1 y1 x2 y2 "white" 1) img_pil).

Definition apply_effects (image : Image) (effect : string) : Gen Image :=
  let img_cv := ensure_grayscale image in
  if String.eqb effect "blurry" then
    ret (paint (GaussianBlur 7 7 2) img_cv)
  else if String.eqb effect "dirty" then
    noise <- draw NumPy ;;
    ret (paint (AddNoise 0 50 noise) img_cv)
  else if String.eqb effect "rainy" then
    img_cv_color <- cvtColor_GRAY2RGB img_cv ;;
    img_pil <- for_each (range 0 50) (fun _ img_pil => rain_streak img_pil)
                 img_cv_color ;;
    ret (paint (Converted L) (with_mode L img_pil))
  else if String.eqb effect "snowy" then
    snow <- draw NumPy ;;
    ret (paint (SnowBlend 0 255 snow 250 255 (9 # 10) (1 # 10) 0) img_cv)
  else ret img_cv.

(** Truth value of an optional string: [None] and [""] are false. *)
Definition truthy (s : option string) : bool :=
  match s with
  | Some (String _ _) => true
  | _ => false
  end.

(** [overlay_plate_info] draws on the image it is given; the model
    returns the image after the drawing. *)
Definition overlay_plate_info (image : Image) (plate_area : Box)
    (plate_number : string) (plate_state : PlateStateInfo)
    (plate_type : option string) : Image :=
  let '(x0, y0, x1, y1) := plate_area in
  let image := paint (Rectangle plate_area (200, 200, 200) "gray") image in
  let state_y := y0 + PLATE_PADDING in
  let image :=
    paint (CentredText x0 x1 state_y (full_name plate_state) "black" FONT_PATH
             STATE_FONT_SIZE) image in
  let plate_y := state_y + 10 in
  let image :=
    paint (CentredText x0 x1 plate_y plate_number "black" FONT_PATH
             PLATE_FONT_SIZE) image in
  match plate_type with
  | Some label =>
      if truthy plate_type then
        let plate_type_y := y1 - 12 in
        paint (CentredText x0 x1 plate_type_y label "black" FONT_PATH
                 STATE_FONT_SIZE) image
      else image
  | None => image
  end.

Definition Image_convert (m : Mode) (img : Image) : Image :=
  paint (Converted m) (with_mode m img).

Definition Image_crop (box : Box) (img : Image) : Image :=
  let '(x0, y0, x1, y1) := box in
  mkImage (mode img) (Z.to_N (x1 - x0)) (Z.to_N (y1 - y0))
    (pixels img ++ [Cropped box]).

Definition Image_resize (w h : Z) (resample : string) (img : Image) : Image :=
  mkImage (mode img) (Z.to_N w) (Z.to_N h) (pixels img ++ [Resized w h resample]).

Definition default_vehicle_type_distribution : list (string * Q) :=
  [("Car", 6 # 10); ("SUV", 2 # 10); ("Small Truck", 1 # 10);
   ("Tractor Trailer", 1 # 10)].

Definition effect_names : list string := ["clear"; "dirty"; "blurry"; "snow"; "rain"].
Definition effect_weights : list Q := [83 # 100; 2 # 100; 5 # 100; 5 # 100; 5 # 100].

Definition vehicle_file (transaction_id : string) (i : Z) : string :=
  String.concat "" [transaction_id; "_vehicle_"; str i; ".jpg"].

Definition plateroi_file (transaction_id : string) : string :=
  String.append transaction_id "_plateroi.jpg".

(** The inner loop of [generate_vehicle_images]: it saves the image of
    the current outer turn under the index-based names and appends one
    descriptor per save. *)
Definition save_overviews (transaction_id : string) (img : Image)
    (max_vehicle_images : Z) (images : list VehicleImage) : Gen (list VehicleImage) :=
  for_each (range 1 max_vehicle_images)
    (fun i images =>
       let vehicle_image_file := vehicle_file transaction_id i in
       let vehicle_image_path := os_path_join OUTPUT_IMAGES_DIR vehicle_image_file in
       Image_save img vehicle_image_path ;;;
       ret (images ++ [mkVehicleImage vehicle_image_path "1"]))
    images.

(** One turn of the outer loop: open the template, draw the plate, apply
    the effect, then run the inner loop.  It leaves [images], [img] and
    [plate_area] to the code after the loop. *)
Definition overview_turn (transaction_id plate_number : string)
    (plate_state : PlateStateInfo) (plate_type : option string) (effect : string)
    (max_vehicle_images : Z) (images : list VehicleImage)
  : Gen (list VehicleImage * option (Image * Box)) :=
  let vehicle_image_path := os_path_join VEHICLE_IMAGES_DIR "vehicle.jpg" in
  opened <- Image_open vehicle_image_path ;;
  let img := Image_convert RGB opened in
  let plate_area := (250, 450, 450, 500) in
  let img := overlay_plate_info img plate_area plate_number plate_state plate_type in
  img <- apply_effects img effect ;;
  images <- save_overviews transaction_id img max_vehicle_images images ;;
  ret (images, Some (img, plate_area)).

Definition generate_vehicle_images (transaction_id plate_number : string)
    (plate_state : PlateStateInfo) (plate_type : option string)
    (vehicle_type_distribution : option (list (string * Q)))
    (max_vehicle_images : Z) : Gen (list VehicleImage) :=
  let vehicle_type_distribution :=
    match vehicle_type_distribution with
    | None => default_vehicle_type_distribution
    | Some d => d
    end in
  vehicle_type <- random_choices (map fst vehicle_type_distribution)
                    (map snd vehicle_type_distribution) ;;
  let images := [] in
  effect <- random_choices effect_names effect_weights ;;
  stop <- random_randint 2 4 ;;
  after <- for_each (range 1 stop)
             (fun _ st =>
                overview_turn transaction_id plate_number plate_state plate_type
                  effect max_vehicle_images (fst st))
             (images, None) ;;
  match after with
  | (_, None) => raise UnboundLocalError
  | (images, Some (img, plate_area)) =>
      let cropped_plate := Image_crop plate_area img in
      let cropped_plate := Image_resize 400 100 "LANCZOS" cropped_plate in
      let cropped_plate_file := plateroi_file transaction_id in
      let cropped_plate_path := os_path_join OUTPUT_IMAGES_DIR cropped_plate_file in
      Image_save cropped_plate cropped_plate_path ;;;
      ret (images ++ [mkVehicleImage cropped_plate_path "2"])
  end.

Definition send_to_azure_service_bus (batch : list TransactionRecord) : Gen unit :=
  for_each batch (fun record _ => sender_send_messages record) tt ;;;
  print (String.concat ""
           ["Batch of "; str (Z.of_nat (List.length batch));
            " sent to Azure Service Bus queue: "; QUEUE_NAME]).

(** The block under [# Send or save in batches], which the source
    repeats under [# Process any remaining records]. *)
Definition send_or_save (batch : list TransactionRecord) : Gen unit :=
  if USE_AZURE_SERVICE_BUS then send_to_azure_service_bus batch
  else
    u <- uuid_uuid4 ;;
    let file_name :=
      os_path_join TRXDATA_DIR (String.concat "" ["batch_"; uuid_hex u; ".json"]) in
    json_dump_to file_name batch ;;;
    print (String.append "Batch saved to file: " file_name).

(** Lines 198-200: the plate type of a record. *)
Definition sample_plate_types (plate_state_info : PlateStateInfo) : Gen (option string) :=
  let plate_types := None in
  if String.eqb (abbreviation plate_state_info) "IL" then
    chosen <- random_choice
                match state_plate_types plate_state_info with
                | Some l => l
                | None => []
                end ;;
    ret (Some chosen)
  else ret plate_types.

(** A conditional expression [value if random.random() > 0.5 else None]:
    the condition is evaluated first. *)
Definition maybe {A} (value : Gen A) : Gen (option A) :=
  r <- random_random ;;
  if negb (Qle_bool r (1 # 2)) then v <- value ;; ret (Some v) else ret None.

(** The body of the driving loop up to the record. *)
Definition make_record (start_date end_date : Z) : Gen TransactionRecord :=
  u <- uuid_uuid4 ;;
  let transaction_id := uuid_str u in
  plate_state_info <- random_plate_state ;;
  plate_number <- random_plate_number (format plate_state_info) ;;
  plate_types <- sample_plate_types plate_state_info ;;
  image_count <- random_randint 1 3 ;;
  vehicle_images <- generate_vehicle_images transaction_id plate_number
                      plate_state_info plate_types None image_count ;;
  dt <- random_date start_date end_date ;;
  location <- random_randint 1001 1008 ;;
  location_type <- random_randint 1 5 ;;
  lane <- random_randint 1 5 ;;
  tag_agency <- maybe (i <- random_randint 1 25 ;; ret (format_04d i)) ;;
  tag_number <- maybe (i <- random_randint 1000000000 9999999999 ;; ret (str i)) ;;
  vehicle_class <- random_randint 1 5 ;;
  axles <- random_randint 1 6 ;;
  camera <- random_randint 1001 1006 ;;
  orientation <- random_choice ["F"; "R"] ;;
  direction <- random_randint 1 2 ;;
  lat <- random_uniform 40 42 ;;
  lon <- random_uniform (-88) (-86) ;;
  ret (mkRecord transaction_id dt location location_type lane plate_number
         (abbreviation plate_state_info) tag_agency tag_number vehicle_class axles
         camera orientation direction (round6 lat) (round6 lon) vehicle_images
         plate_types).

(** The driving loop: [batch] and [record_count] are its variables. *)
Definition offer_records (start_date end_date total_records batch_size : Z)
  : Gen (list TransactionRecord * Z) :=
  for_each (range 0 total_records)
    (fun _ st =>
       let '(batch, record_count) := st in
       record <- make_record start_date end_date ;;
       let batch := batch ++ [record] in
       let record_count := record_count + 1 in
       if Z.of_nat (List.length batch) =? batch_size then
         send_or_save batch ;;; ret ([], record_count)
       else ret (batch, record_count))
    ([], 0).

Definition generate_traffic_data (start_date end_date average_daily_volume
    batch_size : Z) : Gen unit :=
  let total_days := timedelta_days (end_date - start_date) in
  let total_records := average_daily_volume * total_days in
  st <- offer_records start_date end_date total_records batch_size ;;
  let '(batch, record_count) := st in
  match batch with
  | _ :: _ => send_or_save batch
  | [] => ret tt
  end ;;;
  print (String.append "Total records generated: " (str record_count)).

(** Worlds for examples.  [world_of draws] gives Python's [random] the
    listed draws (then zeros) and a simple progression to the other
    sources; the template is an 800x600 image and nothing has been
    written yet. *)
Definition world_of (draws : list N) : World :=
  mkWorld
    (fun s i => match s with
                | PyRandom => nth i draws 0%N
                | _ => (7 * N.of_nat i + 3)%N
                end)
    (fun _ => 0%nat)
    (fun path => mkImage RGB 800 600 [Opened path]) [] [] [] [].

Definition world0 : World := world_of [].

(** ** [servicebus_send.py]: [send_batch_message] *)

Module servicebus_send.

(** The sender and what it has done.  [accepts held msg] tells whether
    the SDK's [ServiceBusMessageBatch.add_message] takes [msg] into a
    batch that holds [held]; when it does not, it raises
    [MessageSizeExceededError], a [ValueError]. *)
Record Bus := mkBus {
  accepts : list string -> string -> bool;
  add_calls : list string;            (* [add_message] calls, oldest first *)
  published : list (list string)      (* [send_messages] calls, oldest first *)
}.

Definition create_message_batch : M Bus (list string) := ret [].

Definition add_message (batch_message : list string) (msg : string)
  : M Bus (list string) :=
  fun b =>
    let b' := mkBus (accepts b) (add_calls b ++ [msg]) (published b) in
    if accepts b batch_message msg then Returned (batch_message ++ [msg]) b'
    else Raised ValueError b'.

Definition send_messages (batch_message : list string) : M Bus unit :=
  fun b => Returned tt (mkBus (accepts b) (add_calls b) (published b ++ [batch_message])).

Definition the_message := "Message inside a ServiceBusMessageBatch".

Definition send_batch_message : M Bus unit :=
  batch_message <- create_message_batch ;;
  batch_message <-
    for_each_break (range 0 10)
      (fun _ batch_message =>
         try_except
           (added <- add_message batch_message the_message ;; ret (Next added))
           ValueError
           (ret (Break batch_message)))
      batch_message ;;
  send_messages batch_message.

(** A sender whose batches hold at most [n] messages. *)
Definition bus_of_capacity (n : nat) : Bus :=
  mkBus (fun held _ => (List.length held <? n)%nat) [] [].

End servicebus_send.

(** ** Reasoning about runs *)

(** [m] run in [w] returns, and its result and final world satisfy [Q]. *)
Definition wp {W A} (m : M W A) (Q : A -> W -> Prop) (w : W) : Prop :=
  match m w with
  | Returned a w' => Q a w'
  | Raised _ _ => False
  end.

(** What a run may change of the world besides the entropy cursors. *)
Definition same_outputs (w w' : World) : Prop :=
  tape w' = tape w /\ asset w' = asset w /\ saved w' = saved w /\
  dumped w' = dumped w /\ sent w' = sent w /\ stdout w' = stdout w.

(** The value a run returns, if it returns. *)
Definition returned_value {W A} (o : Outcome W A) : option A :=
  match o with
  | Returned a _ => Some a
  | Raised _ _ => None
  end.

(** The exception a run raises, if it raises. *)
Definition raised_exception {W A} (o : Outcome W A) : option Exn :=
  match o with
  | Returned _ _ => None
  | Raised e _ => Some e
  end.

(** ** Vocabulary of the claims *)

Definition is_placeholder (c : ascii) : bool :=
  (Ascii.eqb c "A" || Ascii.eqb c "#")%bool.

(** The class a format character asks of the plate character at its
    position: a letter for [A], a digit for [#], itself otherwise. *)
Definition matches_class (f p : ascii) : Prop :=
  if Ascii.eqb f "A" then In p (chars uppercase)
  else if Ascii.eqb f "#" then In p (chars digits)
  else p = f.

(** A plate that follows a format position by position. *)
Definition plate_matches_format (format_string plate : string) : Prop :=
  String.length plate = String.length format_string /\
  Forall2 matches_class (chars format_string) (chars plate).

(** The placeholders of a format, in order. *)
Definition placeholders (format_string : string) : list ascii :=
  filter is_placeholder (chars format_string).



(** Weights [random.choices] accepts for a population: as many as the
    population has members, with a positive total. *)
Definition usable_weights {A} (population : list A) (weights : list Q) : bool :=
  ((List.length (accumulate weights) =? List.length population)%nat &&
   match rev (accumulate weights) with
   | [] => false
   | total :: _ => negb (Qle_bool total 0)
   end)%bool.

(** A [vehicle_type_distribution] argument the composer can sample:
    the default, or a dictionary with usable weights. *)
Definition usable_distribution (d : option (list (string * Q))) : bool :=
  match d with
  | None => true
  | Some d => usable_weights (map fst d) (map snd d)
  end.

(** The number of turns of the composer's outer loop in a world: the
    composer's third draw from [random] decides [randint(2, 4)], and the
    loop runs over [range(1, that)]. *)
Definition outer_turns (w : World) : Z :=
  1 + Z.of_N (tape w PyRandom (S (S (cursor w PyRandom)))) mod 3.

Definition overview_path (transaction_id : string) (i : Z) : string :=
  os_path_join OUTPUT_IMAGES_DIR (vehicle_file transaction_id i).

Definition plateroi_path (transaction_id : string) : string :=
  os_path_join OUTPUT_IMAGES_DIR (plateroi_file transaction_id).

(** The descriptors one turn of the outer loop appends. *)
Definition overview_block (transaction_id : string) (max_vehicle_images : Z)
  : list VehicleImage :=
  map (fun i => mkVehicleImage (overview_path transaction_id i) "1")
    (range 1 max_vehicle_images).

(** The saves one turn of the outer loop makes of its image. *)
Definition overview_saves (transaction_id : string) (max_vehicle_images : Z)
    (img : Image) : list (string * Image) :=
  map (fun i => (overview_path transaction_id i, img)) (range 1 max_vehicle_images).

(** Image types of the descriptors: ["1"] Overview, ["2"] RegionOfInterest. *)
Definition is_overview (v : VehicleImage) : bool := String.eqb (image_type v) "1".
Definition is_roi (v : VehicleImage) : bool := String.eqb (image_type v) "2".

Definition count_overview (images : list VehicleImage) : nat :=
  List.length (filter is_overview images).
Definition count_roi (images : list VehicleImage) : nat :=
  List.length (filter is_roi images).

(** What a run leaves alone when it only draws and saves images. *)
Definition only_saves (w w' : World) : Prop :=
  tape w' = tape w /\ asset w' = asset w /\ dumped w' = dumped w /\
  sent w' = sent w /\ stdout w' = stdout w.

(** The records of the batch files written between two worlds, file by
    file, when the later world extends the earlier one. *)
Definition flushes_between (w w' : World) (flushes : list (list TransactionRecord)) : Prop :=
  exists files,
    dumped w' = dumped w ++ files /\ map snd files = flushes.

(** [ceil(total / size)] for a positive size *)
Definition ceil_div (total size : Z) : Z := (total + size - 1) / size.

(** What the driving loop leaves alone: the entropy tapes, the assets
    and the queue (the file sink is the active one). *)
Definition file_sink_only (w w' : World) : Prop :=
  tape w' = tape w /\ asset w' = asset w /\ sent w' = sent w.

(** The loop after [n] records: [n] is the count, the files written so
    far hold all records but those of the current batch and, for a
    positive batch size, each holds [batch_size] records while the
    current batch holds the [n mod batch_size] newest. *)
Definition offered (w : World) (batch_size : Z) (n : nat)
    (st : list TransactionRecord * Z) (w' : World) : Prop :=
  snd st = Z.of_nat n /\
  file_sink_only w w' /\
  exists flushes,
    flushes_between w w' flushes /\
    Forall (fun b => b <> []) flushes /\
    (List.length (List.concat flushes) + List.length (fst st) = n)%nat /\
    (0 < batch_size ->
     map (fun b => Z.of_nat (List.length b)) flushes =
       repeat batch_size (Z.to_nat (Z.of_nat n / batch_size)) /\
     Z.of_nat (List.length (fst st)) = Z.of_nat n mod batch_size).

(** ** Vocabulary of the further properties *)

(** The value [random.random()] makes of a draw. *)
Definition unit_fraction (k : N) : Q := Z.of_N (k mod 2 ^ 53)%N # (2 ^ 53).




(** The world after [n] more draws from a source. *)
Definition advance_by (s : Source) (n : nat) (w : World) : World :=
  Nat.iter n (advance s) w.

(** A rain streak on an image of the given size, as ['rainy'] draws it:
    a white line of width 1 from a point of the image (borders
    included) to a point up to 10 to the left or right and 20 to 50
    further down. *)
Definition rain_streak_op (w h : N) (p : Paint) : Prop :=
  exists x1 y1 x2 y2,
    p = Line x1 y1 x2 y2 "white" 1 /\
    0 <= x1 <= Z.of_N w /\ 0 <= y1 <= Z.of_N h /\
    -10 <= x2 - x1 <= 10 /\ 20 <= y2 - y1 <= 50.

(** The plate area the composer draws and crops. *)
Definition the_plate_area : Box := (250, 450, 450, 500).

(** The path of the template image the composer opens. *)
Definition template_path : string := os_path_join VEHICLE_IMAGES_DIR "vehicle.jpg".

(** An image with one channel and the size of another image. *)
Definition single_channel_like (template img : Image) : Prop :=
  mode img = L /\ width img = width template /\ height img = height template.

(** The plate image the composer saves, made from the image of a turn. *)
Definition plate_roi_of (img : Image) : Image :=
  Image_resize 400 100 "LANCZOS" (Image_crop the_plate_area img).

(** The drawing calls of [overlay_plate_info] that do not depend on the
    plate type. *)
Definition plate_overlay (plate_area : Box) (plate_number : string)
    (plate_state : PlateStateInfo) : list Paint :=
  let '(x0, y0, x1, y1) := plate_area in
  [Rectangle plate_area (200, 200, 200) "gray";
   CentredText x0 x1 (y0 + 5) (full_name plate_state) "black" "arialbd.ttf" 9;
   CentredText x0 x1 (y0 + 15) plate_number "black" "arialbd.ttf" 24].

(** The state, the number and the type of the plate of a record agree
    with one profile of the table. *)
Definition plate_consistent (r : TransactionRecord) : Prop :=
  exists info,
    In info (map snd PLATE_STATES) /\
    PlateState r = abbreviation info /\
    plate_matches_format (format info) (PlateNumber r) /\
    match plate_types r with
    | Some t => abbreviation info = "IL" /\
                exists l, state_plate_types info = Some l /\ In t l
    | None => abbreviation info <> "IL"
    end.

(** The ranges the driving loop draws a record's metadata from. *)
Definition metadata_in_range (start_date end_date : Z) (r : TransactionRecord) : Prop :=
  start_date <= TransactionDt r <= end_date /\
  1001 <= LocationId r <= 1008 /\
  1 <= LocationTypeId r <= 5 /\
  1 <= LaneId r <= 5 /\
  1 <= VehicleClassId r <= 5 /\
  1 <= AxleCount r <= 6 /\
  1001 <= CameraId r <= 1006 /\
  In (CameraOrientation r) ["F"; "R"] /\
  1 <= DirectionId r <= 2 /\
  (40 <= Latitude r <= 42)%Q /\
  (-88 <= Longitude r <= -86)%Q.

(** The optional tag fields: a four-character, zero-padded agency number
    from 1 to 25, and the decimal of a ten-digit tag number. *)
Definition tags_well_formed (r : TransactionRecord) : Prop :=
  match TagAgencyId r with
  | None => True
  | Some s => String.length s = 4%nat /\ exists i, 1 <= i <= 25 /\ s = format_04d i
  end /\
  match TagNumber r with
  | None => True
  | Some s => exists i, 1000000000 <= i <= 9999999999 /\ s = str i
  end.

(** The image list of a record: Overview entries named after the
    record's own transaction id, the same block in each of 1 to 3 turns
    for a requested count of 1 to 3, then the plate entry of that id. *)
Definition images_named_after_record (r : TransactionRecord) : Prop :=
  exists turns count,
    (1 <= turns <= 3)%nat /\ 1 <= count <= 3 /\
    vehicle_images r =
      List.concat (repeat (overview_block (LaneTransId r) count) turns) ++
      [mkVehicleImage (plateroi_path (LaneTransId r)) "2"].

(** A record as the driving loop assembles it, with the files saved so
    far: its fields are well-formed and every image file it names is
    among the saves. *)
Definition record_as_assembled (start_date end_date : Z)
    (saves : list (string * Image)) (r : TransactionRecord) : Prop :=
  plate_consistent r /\
  metadata_in_range start_date end_date r /\
  tags_well_formed r /\
  images_named_after_record r /\
  incl (map image_file (vehicle_images r)) (map fst saves).

(** A lower-case hexadecimal digit. *)
Definition is_hex_digit (c : ascii) : Prop := In c (chars "0123456789abcdef").

(** The name of a batch file: [batch_<32 hex digits>.json] in the
    transaction-data directory. *)
Definition batch_file_name (name : string) : Prop :=
  exists h,
    String.length h = 32%nat /\ Forall is_hex_digit (chars h) /\
    name = String.append TRXDATA_DIR
             (String.append "\batch_" (String.append h ".json")).

(** The line [send_or_save] prints for a batch file. *)
Definition announcement (file : string * list TransactionRecord) : string :=
  String.append "Batch saved to file: " (fst file).

(** The driving loop after the items [done], seen through its outputs:
    the batch files and image files written so far, the lines printed,
    and the records in the files and in the current batch. *)
Definition records_so_far (w : World) (start_date end_date batch_size : Z)
    (done : list Z) (st : list TransactionRecord * Z) (w' : World) : Prop :=
  exists files saves,
    dumped w' = dumped w ++ files /\
    saved w' = saved w ++ saves /\
    stdout w' = stdout w ++ map announcement files /\
    sent w' = sent w /\ tape w' = tape w /\ asset w' = asset w /\
    Forall (record_as_assembled start_date end_date saves)
      (List.concat (map snd files) ++ fst st) /\
    List.length (List.concat (map snd files) ++ fst st) = List.length done /\
    snd st = Z.of_nat (List.length done) /\
    (batch_size <= 0 -> files = []) /\
    Forall batch_file_name (map fst files).

(** ** [servicebus_send.py]: [main] and the other senders *)

Module servicebus_main.

(** The service as [main] sees it.  [send_failure] is what
    [sender.send_messages] raises, if anything (the other SDK calls are
    taken to succeed); the rest records what has been done: the message
    lists delivered, the objects closed and the lines printed, oldest
    first. *)
Record Service := mkService {
  send_failure : option Exn;
  delivered : list (list string);
  closed : list string;
  printed : list string
}.

Definition send_messages (messages : list string) : M Service unit := fun s =>
  match send_failure s with
  | Some e => Raised e s
  | None =>
      Returned tt
        (mkService (send_failure s) (delivered s ++ [messages]) (closed s) (printed s))
  end.


Definition print (line : string) : M Service unit := fun s =>
  Returned tt (mkService (send_failure s) (delivered s) (closed s) (printed s ++ [line])).



Definition send_a_list_of_messages : M Service unit :=
  let messages := map (fun _ => "Message in list") (range 0 10) in
  send_messages messages.


End servicebus_main.


(** ** The script's entry point *)

(** [datetime(2024, 12, 18)], in microseconds. *)
Definition datetime_2024_12_18 : Z := 1734480000000000.

(** The block under [if __name__ == "__main__"]: [now] is what
    [datetime.now()] gives; the batch size is the default of
    [generate_traffic_data]. *)
Definition script_main (now : Z) : Gen unit :=
  let start_date := datetime_2024_12_18 in
  let end_date := now in
  let average_daily_volume := 10 in
  generate_traffic_data start_date end_date average_daily_volume 10.


(** * Properties *)

(** ** Rules for runs *)

Create HintDb runs.
#[local] Arguments wp : simpl never.
#[local] Arguments bind : simpl never.
#[local] Arguments ret : simpl never.

Lemma wp_ret {W A} (a : A) (Q : A -> W -> Prop) w : Q a w -> wp (ret a) Q w.
Proof. exact (fun H => H). Qed.

Lemma wp_bind {W A B} (m : M W A) (k : A -> M W B) (Q : B -> W -> Prop) w :
  wp m (fun a w' => wp (k a) Q w') w -> wp (bind m k) Q w.
Proof. unfold wp, bind. destruct (m w); auto. Qed.

Lemma wp_mono {W A} (m : M W A) (P Q : A -> W -> Prop) w :
  (forall a w', P a w' -> Q a w') -> wp m P w -> wp m Q w.
Proof. unfold wp. destruct (m w); auto. Qed.

Lemma wp_returned {W A} (m : M W A) (Q : A -> W -> Prop) w :
  wp m Q w <-> exists a w', m w = Returned a w' /\ Q a w'.
Proof.
  unfold wp. split.
  - destruct (m w) as [a w'|e w']; [eauto | tauto].
  - intros (a & w' & -> & H). exact H.
Qed.

(** Loop rule: an invariant on the accumulator and the world, indexed by
    the items already consumed. *)
Lemma wp_for_each {W A S} (body : A -> S -> M W S)
      (I : list A -> S -> W -> Prop) :
  forall xs done acc w,
    I done acc w ->
    (forall x done' acc' w', I done' acc' w' ->
        wp (body x acc') (fun acc'' w'' => I (done' ++ [x]) acc'' w'') w') ->
    wp (for_each xs body acc) (fun acc' w' => I (done ++ xs) acc' w') w.
Proof.
  induction xs as [|x xs IH]; intros done acc w HI Hbody; simpl.
  - rewrite app_nil_r. exact HI.
  - apply wp_bind. eapply wp_mono; [|exact (Hbody x done acc w HI)].
    intros acc' w' HI'. simpl in HI'.
    replace (done ++ x :: xs) with ((done ++ [x]) ++ xs)
      by (rewrite <- app_assoc; reflexivity).
    apply IH; assumption.
Qed.

Lemma same_outputs_refl w : same_outputs w w.
Proof. repeat split. Qed.

Lemma same_outputs_trans w1 w2 w3 :
  same_outputs w1 w2 -> same_outputs w2 w3 -> same_outputs w1 w3.
Proof.
  unfold same_outputs. intros (?&?&?&?&?&?) (?&?&?&?&?&?).
  repeat split; congruence.
Qed.

#[local] Hint Resolve same_outputs_refl : runs.

Lemma wp_draw s (Q : N -> World -> Prop) w :
  (forall k w', same_outputs w w' -> Q k w') -> wp (draw s) Q w.
Proof. intros H. unfold wp, draw. apply H. repeat split. Qed.

Lemma wp_random_random (Q : Q -> World -> Prop) w :
  (forall r w', same_outputs w w' -> Q r w') -> wp random_random Q w.
Proof.
  intros H. unfold random_random. apply wp_bind, wp_draw. intros k w' Hs.
  apply wp_ret, H, Hs.
Qed.

Lemma wp_random_randint a b (Q : Z -> World -> Prop) w :
  a <= b ->
  (forall v w', a <= v <= b -> same_outputs w w' -> Q v w') ->
  wp (random_randint a b) Q w.
Proof.
  intros Hab H. unfold random_randint.
  destruct (Z.ltb_spec b a); [lia|].
  apply wp_bind, wp_draw. intros k w' Hs. apply wp_ret, H; [|exact Hs].
  pose proof (Z.mod_pos_bound (Z.of_N k) (b - a + 1)). lia.
Qed.

Lemma randbelow_lt k n : n <> 0%nat -> (randbelow k n < n)%nat.
Proof.
  intros Hn. unfold randbelow.
  pose proof (N.mod_lt k (N.of_nat n) ltac:(lia)). lia.
Qed.

Lemma wp_random_choice {A} (seq : list A) (Q : A -> World -> Prop) w :
  seq <> [] ->
  (forall x w', In x seq -> same_outputs w w' -> Q x w') ->
  wp (random_choice seq) Q w.
Proof.
  intros Hne H. destruct seq as [|x seq]; [congruence|].
  unfold random_choice. apply wp_bind, wp_draw. intros k w' Hs.
  apply wp_ret, H; [|exact Hs].
  apply nth_In, randbelow_lt. discriminate.
Qed.

(** ** Plate numbers *)

Lemma chars_append s t : chars (String.append s t) = chars s ++ chars t.
Proof. induction s as [|c s IH]; simpl; [reflexivity | now rewrite IH]. Qed.

Lemma length_chars s : List.length (chars s) = String.length s.
Proof. induction s as [|c s IH]; simpl; [reflexivity | now rewrite IH]. Qed.

Lemma random_plate_number_spec format_string w :
  wp (random_plate_number format_string)
     (fun plate w' =>
        Forall2 matches_class (placeholders format_string) (chars plate) /\
        same_outputs w w') w.
Proof.
  unfold random_plate_number, placeholders.
  pose (I := fun (done : list ascii) (plate : string) (w' : World) =>
               Forall2 matches_class (filter is_placeholder done) (chars plate) /\
               same_outputs w w').
  apply (wp_for_each _ I (chars format_string) [] "" w).
  - split; [constructor | auto with runs].
  - intros c done plate w1 [HF Hs]. unfold I.
    rewrite filter_app. cbn [filter]. unfold is_placeholder.
    destruct (Ascii.eqb c "A") eqn:EA; cbn [orb].
    + apply wp_bind, wp_random_choice; [discriminate|].
      intros x w2 Hin Hs2. apply wp_ret. split.
      * unfold add_char. rewrite chars_append. apply Forall2_app; [exact HF|].
        constructor; [|constructor]. unfold matches_class. now rewrite EA.
      * eapply same_outputs_trans; eassumption.
    + destruct (Ascii.eqb c "#") eqn:EH; cbn [orb].
      * apply wp_bind, wp_random_choice; [discriminate|].
        intros x w2 Hin Hs2. apply wp_ret. split.
        -- unfold add_char. rewrite chars_append. apply Forall2_app; [exact HF|].
           constructor; [|constructor]. unfold matches_class. now rewrite EA, EH.
        -- eapply same_outputs_trans; eassumption.
      * apply wp_ret. rewrite app_nil_r. split; assumption.
Qed.

(** C1, as stated, fails: on the format ["A-#"] the sampler returns a
    two-character plate; the literal ["-"] is not copied. *)
Lemma C1_literal_not_copied :
  returned_value (random_plate_number "A-#" world0) = Some "A0" /\
  ~ plate_matches_format "A-#" "A0".
Proof.
  split; [reflexivity|]. intros [Hlen _]. discriminate Hlen.
Qed.

(** C1, amended: for every format string and every sequence of random
    draws, [random_plate_number] returns a plate with exactly one
    character per placeholder of the format, in order -- a character of
    A-Z for a letter placeholder, of 0-9 for a digit placeholder -- and
    nothing for any other character of the format; so the plate follows
    the format position by position whenever the format consists of
    placeholders only. *)
Theorem C1_plate_follows_placeholders :
  forall (format_string : string) (w : World),
  exists plate w',
    random_plate_number format_string w = Returned plate w' /\
    Forall2 matches_class (placeholders format_string) (chars plate) /\
    String.length plate = List.length (placeholders format_string) /\
    (placeholders format_string = chars format_string ->
     plate_matches_format format_string plate).
Proof.
  intros format_string w.
  destruct (proj1 (wp_returned _ _ _) (random_plate_number_spec format_string w))
    as (plate & w' & Hrun & HF & _).
  exists plate, w'. split; [exact Hrun|]. split; [exact HF|].
  pose proof (Forall2_length HF) as Hlen. rewrite length_chars in Hlen.
  split; [now symmetry|].
  intros Hall. split.
  - rewrite <- Hlen, Hall. apply length_chars.
  - now rewrite <- Hall.
Qed.

Lemma C1_plate_follows_placeholders_witness :
  exists plate w',
    random_plate_number "AAA####" world0 = Returned plate w' /\
    plate_matches_format "AAA####" plate.
Proof.
  destruct (C1_plate_follows_placeholders "AAA####" world0)
    as (plate & w' & Hrun & _ & _ & Hall).
  exists plate, w'. split; [exact Hrun | apply Hall; reflexivity].
Defined.

(** ** The effect engine *)



Lemma ensure_grayscale_cases image :
  ensure_grayscale image =
  match mode image with
  | RGB => mkImage L (width image) (height image)
             (pixels image ++ [CvtColor "COLOR_RGB2GRAY"])
  | _ => image
  end.
Proof. unfold ensure_grayscale, shape. destruct (mode image); reflexivity. Qed.

Lemma wp_rain_streak img (Q : Image -> World -> Prop) w :
  (forall img' w', same_outputs w w' -> Q img' w') -> wp (rain_streak img) Q w.
Proof.
  intros H. unfold rain_streak.
  apply wp_bind, wp_random_randint; [lia|]. intros x1 w1 _ H1.
  apply wp_bind, wp_random_randint; [lia|]. intros y1 w2 _ H2.
  apply wp_bind, wp_random_randint; [lia|]. intros dx w3 _ H3.
  apply wp_bind, wp_random_randint; [lia|]. intros dy w4 _ H4.
  apply wp_ret, H.
  eauto using same_outputs_trans.
Qed.

(** What a run of the engine can end in: it returns, changing nothing
    but entropy cursors, or OpenCV rejects a four-channel array in the
    ['rainy'] branch. *)
Lemma apply_effects_outcome image effect w :
  (exists img' w', apply_effects image effect w = Returned img' w' /\
                   same_outputs w w') \/
  (mode image = RGBA /\ effect = "rainy" /\
   apply_effects image effect w = Raised cv2_error w).
Proof.
  unfold apply_effects.
  destruct (String.eqb effect "blurry"); [left; do 2 eexists; split; [reflexivity|auto with runs]|].
  destruct (String.eqb effect "dirty").
  { left. apply (proj1 (wp_returned _ (fun _ w' => same_outputs w w') w)).
    apply wp_bind, wp_draw. intros k w1 H1. apply wp_ret, H1. }
  destruct (String.eqb_spec effect "rainy") as [->|_].
  { rewrite ensure_grayscale_cases. destruct (mode image) eqn:Em.
    - left. apply (proj1 (wp_returned _ (fun _ w' => same_outputs w w') w)).
      apply wp_bind. unfold cvtColor_GRAY2RGB. rewrite Em. apply wp_ret.
      apply wp_bind.
      eapply wp_mono;
        [| apply (wp_for_each _ (fun _ _ w' => same_outputs w w') (range 0 50) []);
           [apply same_outputs_refl|] ].
      + intros img w' Hs. apply wp_ret, Hs.
      + intros _ _ img w1 Hs. apply wp_rain_streak. intros img' w2 H2.
        eapply same_outputs_trans; eassumption.
    - left. apply (proj1 (wp_returned _ (fun _ w' => same_outputs w w') w)).
      apply wp_bind. unfold cvtColor_GRAY2RGB. cbn [mode]. apply wp_ret.
      apply wp_bind.
      eapply wp_mono;
        [| apply (wp_for_each _ (fun _ _ w' => same_outputs w w') (range 0 50) []);
           [apply same_outputs_refl|] ].
      + intros img w' Hs. apply wp_ret, Hs.
      + intros _ _ img w1 Hs. apply wp_rain_streak. intros img' w2 H2.
        eapply same_outputs_trans; eassumption.
    - right. repeat split. unfold bind, cvtColor_GRAY2RGB. rewrite Em. reflexivity. }
  destruct (String.eqb effect "snowy").
  { left. apply (proj1 (wp_returned _ (fun _ w' => same_outputs w w') w)).
    apply wp_bind, wp_draw. intros k w1 H1. apply wp_ret, H1. }
  left. do 2 eexists. split; [reflexivity | auto with runs].
Qed.

Lemma wp_apply_effects image effect (Q : Image -> World -> Prop) w :
  mode image <> RGBA ->
  (forall img' w', same_outputs w w' -> Q img' w') ->
  wp (apply_effects image effect) Q w.
Proof.
  intros Hm H. apply wp_returned.
  destruct (apply_effects_outcome image effect w) as [(img' & w' & Hrun & Hs)|(Ha & _)].
  - exists img', w'. auto.
  - contradiction.
Qed.





(** ** Plate types *)

Lemma sample_plate_types_not_IL info w :
  abbreviation info <> "IL" -> sample_plate_types info w = Returned None w.
Proof.
  intros H. unfold sample_plate_types.
  destruct (String.eqb_spec (abbreviation info) "IL"); [contradiction | reflexivity].
Qed.

Lemma sample_plate_types_IL info first others w :
  abbreviation info = "IL" ->
  state_plate_types info = Some (first :: others) ->
  exists w',
    sample_plate_types info w =
      Returned
        (Some (nth (randbelow (tape w PyRandom (cursor w PyRandom))
                      (List.length (first :: others)))
                 (first :: others) first)) w' /\
    same_outputs w w'.
Proof.
  intros Hil Hl. unfold sample_plate_types. rewrite Hil, Hl.
  eexists. split; [reflexivity | repeat split].
Qed.

(** An Illinois profile without plate types passes the test on the code: the
    default of [.get] is the empty list, and [random.choice] raises. *)
Lemma sample_plate_types_IL_without_list info w :
  abbreviation info = "IL" ->
  state_plate_types info = None \/ state_plate_types info = Some [] ->
  sample_plate_types info w = Raised IndexError w.
Proof.
  intros Hil Hl. unfold sample_plate_types. rewrite Hil.
  destruct Hl as [-> | ->]; reflexivity.
Qed.

(** C7, as stated, fails: a profile that defines a plate-type list but
    whose code is not IL gets no plate type. *)
Lemma C7_list_ignored_outside_Illinois :
  state_plate_types
    (mkPlateState "Ohio" "OH" (1 # 10) "AAA####" (Some ["Passenger"; "Commercial"]))
    <> None /\
  sample_plate_types
    (mkPlateState "Ohio" "OH" (1 # 10) "AAA####" (Some ["Passenger"; "Commercial"]))
    world0 = Returned None world0.
Proof. split; [discriminate | reflexivity]. Qed.

(** C7, amended: the plate type is gated on the jurisdiction code, not
    on the presence of a list.  For every profile whose code is IL and
    which defines a non-empty plate-type list, the sampler returns the
    entry of that list at index [randbelow] of the next random draw
    (the draw mod the length), hence each entry for equally many draws; for every profile whose code is not IL
    it returns the absent value without raising, whether or not a list is
    defined.  In the configured table the code is IL exactly for the
    profiles that define a list. *)
Theorem C7_plate_type_gated_on_Illinois :
  forall (info : PlateStateInfo) (w : World),
    (abbreviation info = "IL" ->
     forall first others, state_plate_types info = Some (first :: others) ->
       exists chosen w',
         sample_plate_types info w = Returned (Some chosen) w' /\
         In chosen (first :: others) /\
         chosen = nth (randbelow (tape w PyRandom (cursor w PyRandom))
                         (List.length (first :: others)))
                    (first :: others) first) /\
    (abbreviation info <> "IL" -> sample_plate_types info w = Returned None w) /\
    Forall (fun entry =>
              String.eqb (abbreviation (snd entry)) "IL" =
              match state_plate_types (snd entry) with
              | Some _ => true
              | None => false
              end) PLATE_STATES.
Proof.
  intros info w. split; [|split].
  - intros Hil first others Hl.
    destruct (sample_plate_types_IL info first others w Hil Hl) as (w' & Hrun & _).
    eexists; exists w'. split; [exact Hrun|]. split; [|reflexivity].
    apply nth_In, randbelow_lt. discriminate.
  - apply sample_plate_types_not_IL.
  - repeat constructor.
Qed.

Lemma C7_plate_type_gated_on_Illinois_witness :
  (exists chosen w',
      sample_plate_types
        (mkPlateState "Illinois" "IL" (1 # 10) "A######"
           (Some ["Passenger"; "Commercial"; "Firefighter"; "Doctor"]))
        (world_of [6%N]) = Returned (Some chosen) w' /\
      chosen = "Firefighter") /\
  sample_plate_types (mkPlateState "Maryland" "MD" (5 # 100) "AAA###" None) world0 =
    Returned None world0.
Proof.
  split.
  - destruct (proj1 (C7_plate_type_gated_on_Illinois
                       (mkPlateState "Illinois" "IL" (1 # 10) "A######"
                          (Some ["Passenger"; "Commercial"; "Firefighter"; "Doctor"]))
                       (world_of [6%N]))
                    eq_refl "Passenger" ["Commercial"; "Firefighter"; "Doctor"] eq_refl)
      as (chosen & w' & Hrun & _ & Hnth).
    exists chosen, w'. split; [exact Hrun | exact Hnth].
  - apply (proj1 (proj2 (C7_plate_type_gated_on_Illinois
                           (mkPlateState "Maryland" "MD" (5 # 100) "AAA###" None) world0))).
    discriminate.
Defined.

(** ** Weighted choice *)

Lemma bisect_loop_bounds turns a x :
  forall lo hi, (lo <= hi)%nat ->
                (lo <= bisect_loop turns a x lo hi <= hi)%nat.
Proof.
  induction turns as [|turns IH]; intros lo hi Hle; cbn [bisect_loop]; [lia|].
  destruct (Nat.ltb_spec lo hi) as [Hlt|]; [|lia].
  assert (Hmid : (lo <= (lo + hi) / 2 < hi)%nat).
  { split.
    - apply Nat.div_le_lower_bound; lia.
    - apply Nat.Div0.div_lt_upper_bound; lia. }
  destruct (negb _).
  - specialize (IH lo ((lo + hi) / 2)%nat). lia.
  - specialize (IH ((lo + hi) / 2 + 1)%nat hi). lia.
Qed.

(** [hi - lo] turns are enough: further turns find the interval empty
    and change nothing. *)
Lemma bisect_loop_enough turns a x :
  forall lo hi, (hi - lo <= turns)%nat ->
                bisect_loop (S turns) a x lo hi = bisect_loop turns a x lo hi.
Proof.
  induction turns as [|turns IH]; intros lo hi Hle.
  - cbn [bisect_loop]. destruct (Nat.ltb_spec lo hi); [lia | reflexivity].
  - change (bisect_loop (S (S turns)) a x lo hi)
      with (if (lo <? hi)%nat
            then if negb (Qle_bool (nth ((lo + hi) / 2)%nat a 0%Q) x)
                 then bisect_loop (S turns) a x lo ((lo + hi) / 2)%nat
                 else bisect_loop (S turns) a x ((lo + hi) / 2 + 1)%nat hi
            else lo).
    change (bisect_loop (S turns) a x lo hi)
      with (if (lo <? hi)%nat
            then if negb (Qle_bool (nth ((lo + hi) / 2)%nat a 0%Q) x)
                 then bisect_loop turns a x lo ((lo + hi) / 2)%nat
                 else bisect_loop turns a x ((lo + hi) / 2 + 1)%nat hi
            else lo).
    destruct (Nat.ltb_spec lo hi) as [Hlt|]; [|reflexivity].
    assert (Hmid : (lo <= (lo + hi) / 2 < hi)%nat).
    { split.
      - apply Nat.div_le_lower_bound; lia.
      - apply Nat.Div0.div_lt_upper_bound; lia. }
    destruct (negb _); apply IH; lia.
Qed.

Lemma random_random_run w :
  exists r, random_random w = Returned r (advance PyRandom w).
Proof. eexists. reflexivity. Qed.

Lemma random_choices_run {A} (population : list A) (weights : list Q) w :
  usable_weights population weights = true ->
  exists x, In x population /\
            random_choices population weights w = Returned x (advance PyRandom w).
Proof.
  unfold usable_weights, random_choices. intros H.
  apply andb_prop in H. destruct H as [Hlen Htot]. rewrite Hlen. cbn [negb].
  destruct (rev (accumulate weights)) as [|total rest] eqn:Erev; [discriminate|].
  apply negb_true_iff in Htot. rewrite Htot.
  assert (Hpos : (0 < List.length population)%nat).
  { apply Nat.eqb_eq in Hlen. rewrite <- Hlen, <- length_rev, Erev. cbn. lia. }
  unfold bind at 1.
  destruct (random_random_run w) as (r & ->).
  pose proof (bisect_loop_bounds (List.length population - 1 - 0)
                (accumulate weights) (r * total)%Q 0 (List.length population - 1)
                ltac:(lia)) as Hb.
  fold (bisect (accumulate weights) (r * total)%Q 0 (List.length population - 1)) in Hb.
  destruct (nth_error population _) as [x|] eqn:Enth.
  - exists x. split; [eapply nth_error_In; exact Enth | reflexivity].
  - apply nth_error_None in Enth. lia.
Qed.

Lemma random_randint_run a b w :
  a <= b ->
  random_randint a b w =
    Returned (a + Z.of_N (tape w PyRandom (cursor w PyRandom)) mod (b - a + 1))
      (advance PyRandom w).
Proof.
  intros H. unfold random_randint. destruct (Z.ltb_spec b a); [lia | reflexivity].
Qed.

Lemma wp_random_choices {A} (population : list A) weights (Q : A -> World -> Prop) w :
  usable_weights population weights = true ->
  (forall x w', In x population -> same_outputs w w' -> Q x w') ->
  wp (random_choices population weights) Q w.
Proof.
  intros Hu H. apply wp_returned.
  destruct (random_choices_run population weights w Hu) as (x & Hin & Hrun).
  exists x, (advance PyRandom w). split; [exact Hrun|].
  apply H; [exact Hin | repeat split].
Qed.

(** ** The composer *)

Lemma only_saves_refl w : only_saves w w.
Proof. repeat split. Qed.

Lemma same_outputs_only_saves w w' : same_outputs w w' -> only_saves w w'.
Proof. unfold same_outputs, only_saves. tauto. Qed.

Lemma only_saves_trans w1 w2 w3 :
  only_saves w1 w2 -> only_saves w2 w3 -> only_saves w1 w3.
Proof.
  unfold only_saves. intros (?&?&?&?&?) (?&?&?&?&?). repeat split; congruence.
Qed.

Lemma length_range start stop : List.length (range start stop) = Z.to_nat (stop - start).
Proof. unfold range. now rewrite length_map, length_seq. Qed.

(** The inner loop appends one Overview descriptor per index of
    [range(1, max_vehicle_images)] and saves the image once per index. *)
Lemma save_overviews_spec transaction_id img max_vehicle_images images w :
  wp (save_overviews transaction_id img max_vehicle_images images)
     (fun images' w' =>
        images' = images ++ overview_block transaction_id max_vehicle_images /\
        saved w' = saved w ++ overview_saves transaction_id max_vehicle_images img /\
        only_saves w w' /\ cursor w' = cursor w) w.
Proof.
  unfold save_overviews, overview_block, overview_saves.
  pose (I := fun (done : list Z) (images' : list VehicleImage) (w' : World) =>
               images' = images ++
                 map (fun i => mkVehicleImage (overview_path transaction_id i) "1") done /\
               saved w' = saved w ++
                 map (fun i => (overview_path transaction_id i, img)) done /\
               only_saves w w' /\ cursor w' = cursor w).
  apply (wp_for_each _ I (range 1 max_vehicle_images) [] images w).
  - unfold I. cbn [map]. rewrite !app_nil_r. repeat split.
  - intros i done images' w1 (Hi & Hs & Ho & Hc). unfold I.
    apply wp_bind. unfold wp, Image_save, ret. cbn [saved cursor].
    rewrite !map_app, Hi, Hs, !app_assoc. cbn [map].
    repeat split; try apply Ho. exact Hc.
Qed.

Lemma wp_random_choices_exact {A} (population : list A) weights
      (Q : A -> World -> Prop) w :
  usable_weights population weights = true ->
  (forall x, In x population -> Q x (advance PyRandom w)) ->
  wp (random_choices population weights) Q w.
Proof.
  intros Hu H. apply wp_returned.
  destruct (random_choices_run population weights w Hu) as (x & Hin & Hrun).
  exists x, (advance PyRandom w). auto.
Qed.

Lemma wp_random_randint_exact a b (Q : Z -> World -> Prop) w :
  a <= b ->
  Q (a + Z.of_N (tape w PyRandom (cursor w PyRandom)) mod (b - a + 1))
    (advance PyRandom w) ->
  wp (random_randint a b) Q w.
Proof. intros Hab H. unfold wp. rewrite random_randint_run by exact Hab. exact H. Qed.

Lemma mode_overlay_plate_info image plate_area plate_number plate_state plate_type :
  mode (overlay_plate_info image plate_area plate_number plate_state plate_type) =
  mode image.
Proof.
  unfold overlay_plate_info. destruct plate_area as [[[x0 y0] x1] y1].
  destruct plate_type as [label|]; [destruct (truthy (Some label))|]; reflexivity.
Qed.

(** One turn of the outer loop appends the block of Overview
    descriptors and saves its image once per descriptor. *)
Lemma overview_turn_spec transaction_id plate_number plate_state plate_type effect
      max_vehicle_images images w :
  wp (overview_turn transaction_id plate_number plate_state plate_type effect
        max_vehicle_images images)
     (fun st w' =>
        exists img,
          st = (images ++ overview_block transaction_id max_vehicle_images,
                Some (img, (250, 450, 450, 500))) /\
          saved w' = saved w ++ overview_saves transaction_id max_vehicle_images img /\
          only_saves w w') w.
Proof.
  unfold overview_turn. apply wp_bind. unfold Image_open at 1, wp at 1.
  apply wp_bind, wp_apply_effects.
  { rewrite mode_overlay_plate_info. discriminate. }
  intros img w1 H1. apply wp_bind.
  eapply wp_mono; [|apply save_overviews_spec].
  intros images' w2 (Hi & Hs & Ho & _). apply wp_ret.
  exists img. subst images'. split; [reflexivity|]. split.
  - rewrite Hs. f_equal. apply H1.
  - eapply only_saves_trans; [apply same_outputs_only_saves, H1 | exact Ho].
Qed.

Lemma concat_repeat_snoc {A} (block : list A) n :
  List.concat (repeat block n) ++ block = List.concat (repeat block (S n)).
Proof.
  induction n as [|n IH]; cbn [repeat List.concat].
  - now rewrite app_nil_r.
  - rewrite <- app_assoc, IH. reflexivity.
Qed.

Lemma outer_turns_bounds w : 1 <= outer_turns w <= 3.
Proof.
  unfold outer_turns.
  pose proof (Z.mod_pos_bound (Z.of_N (tape w PyRandom (S (S (cursor w PyRandom))))) 3).
  lia.
Qed.

Lemma wp_randint_2_4 (Q : Z -> World -> Prop) w :
  Q (1 + outer_turns w) (advance PyRandom (advance PyRandom (advance PyRandom w))) ->
  wp (random_randint 2 4) Q (advance PyRandom (advance PyRandom w)).
Proof.
  intros H. apply wp_random_randint_exact; [lia|].
  assert (E : 2 + Z.of_N (tape (advance PyRandom (advance PyRandom w)) PyRandom
                            (cursor (advance PyRandom (advance PyRandom w)) PyRandom))
                  mod (4 - 2 + 1) = 1 + outer_turns w).
  { unfold outer_turns. cbn [advance tape cursor Source_eqb].
    change (4 - 2 + 1) with 3. lia. }
  rewrite E. exact H.
Qed.

(** The composer, run to its end: the list it returns and the files it
    saves, for every world and every usable distribution. *)
Lemma generate_vehicle_images_spec transaction_id plate_number plate_state plate_type
      vehicle_type_distribution max_vehicle_images w :
  usable_distribution vehicle_type_distribution = true ->
  wp (generate_vehicle_images transaction_id plate_number plate_state plate_type
        vehicle_type_distribution max_vehicle_images)
     (fun images w' =>
        images =
          List.concat (repeat (overview_block transaction_id max_vehicle_images)
                    (Z.to_nat (outer_turns w))) ++
          [mkVehicleImage (plateroi_path transaction_id) "2"] /\
        exists imgs roi,
          List.length imgs = Z.to_nat (outer_turns w) /\
          saved w' = saved w ++
                     List.concat (map (overview_saves transaction_id max_vehicle_images) imgs) ++
                     [(plateroi_path transaction_id, roi)] /\
          width roi = 400%N /\ height roi = 100%N /\
          only_saves w w') w.
Proof.
  intros Hu. unfold generate_vehicle_images.
  apply wp_bind, wp_random_choices_exact.
  { destruct vehicle_type_distribution; [exact Hu | reflexivity]. }
  intros vehicle_type _.
  apply wp_bind, wp_random_choices_exact; [reflexivity|]. intros effect _.
  apply wp_bind, wp_randint_2_4.
  set (w0 := advance PyRandom (advance PyRandom (advance PyRandom w))).
  assert (Hw0 : only_saves w w0 /\ saved w0 = saved w) by (repeat split).
  pose proof (outer_turns_bounds w) as Hk.
  assert (Hlen : List.length (range 1 (1 + outer_turns w)) = Z.to_nat (outer_turns w)).
  { rewrite length_range. f_equal. lia. }
  assert (Hne : range 1 (1 + outer_turns w) <> []).
  { intros E. rewrite E in Hlen. cbn [List.length] in Hlen. lia. }
  revert Hlen Hne. generalize (range 1 (1 + outer_turns w)) as turns.
  intros turns Hlen Hne. rewrite <- Hlen. clear Hlen Hk.
  pose (block := overview_block transaction_id max_vehicle_images).
  pose (I := fun (done : list Z) (st : list VehicleImage * option (Image * Box))
                 (w' : World) =>
               fst st = List.concat (repeat block (List.length done)) /\
               (done <> [] -> exists img, snd st = Some (img, (250, 450, 450, 500))) /\
               exists imgs,
                 List.length imgs = List.length done /\
                 saved w' = saved w ++
                   List.concat (map (overview_saves transaction_id max_vehicle_images) imgs) /\
                 only_saves w w').
  apply wp_bind.
  eapply wp_mono;
    [| apply (wp_for_each _ I turns [] ([], None) w0) ].
  - intros [images last] w1 (Hi & Hlast & imgs & Hl & Hs & Ho).
    cbn [app fst snd] in *. destruct (Hlast Hne) as (img & ->).
    apply wp_bind. unfold Image_save at 1, wp at 1. apply wp_ret.
    split; [now rewrite Hi|].
    exists imgs, (Image_resize 400 100 "LANCZOS" (Image_crop (250, 450, 450, 500) img)).
    cbn [saved]. rewrite Hs, <- app_assoc.
    repeat split; try apply Ho. exact Hl.
  - unfold I. cbn. split; [reflexivity|]. split; [congruence|].
    exists []. cbn. rewrite app_nil_r. destruct Hw0 as [Ho Hs]. auto.
  - intros x done [images last] w1 (Hi & _ & imgs & Hl & Hs & Ho).
    cbn [fst snd] in *.
    eapply wp_mono; [|apply overview_turn_spec].
    intros st w2 (img & -> & Hs2 & Ho2). unfold I. cbn [fst snd].
    rewrite length_app. cbn [List.length]. rewrite Nat.add_1_r.
    split; [rewrite Hi; apply concat_repeat_snoc|].
    split; [intros _; eauto|].
    exists (imgs ++ [img]). rewrite length_app, map_app, concat_app. cbn.
    rewrite app_nil_r, Hs2, Hs, <- app_assoc.
    split; [lia|]. split; [reflexivity|]. eapply only_saves_trans; eassumption.
Qed.

Lemma overview_block_types transaction_id max_vehicle_images :
  Forall (fun v => image_type v = "1") (overview_block transaction_id max_vehicle_images).
Proof. unfold overview_block. apply Forall_map, Forall_forall. reflexivity. Qed.

Lemma repeated_blocks_types transaction_id max_vehicle_images n :
  Forall (fun v => image_type v = "1")
    (List.concat (repeat (overview_block transaction_id max_vehicle_images) n)).
Proof.
  apply Forall_concat, Forall_forall. intros block Hin.
  apply repeat_spec in Hin. subst block. apply overview_block_types.
Qed.

Lemma count_roi_of_overviews images :
  Forall (fun v => image_type v = "1") images -> filter is_roi images = [].
Proof.
  induction 1 as [|v images Hv _ IH]; [reflexivity|].
  cbn [filter]. unfold is_roi at 1. rewrite Hv, IH. reflexivity.
Qed.


(** The part of the record invariant the composer keeps in every run:
    exactly one RegionOfInterest descriptor, the last one, and the file
    saved last under its path is 400 x 100. *)
Lemma composer_roi_invariant transaction_id plate_number plate_state plate_type
      vehicle_type_distribution max_vehicle_images w :
  usable_distribution vehicle_type_distribution = true ->
  exists images w' roi,
    generate_vehicle_images transaction_id plate_number plate_state plate_type
      vehicle_type_distribution max_vehicle_images w = Returned images w' /\
    count_roi images = 1%nat /\
    last (saved w') (plateroi_path transaction_id, roi) =
      (plateroi_path transaction_id, roi) /\
    (exists earlier, saved w' = earlier ++ [(plateroi_path transaction_id, roi)]) /\
    width roi = 400%N /\ height roi = 100%N.
Proof.
  intros Hu.
  destruct (proj1 (wp_returned _ _ _)
              (generate_vehicle_images_spec transaction_id plate_number plate_state
                 plate_type vehicle_type_distribution max_vehicle_images w Hu))
    as (images & w' & Hrun & -> & imgs & roi & _ & Hs & Hw & Hh & _).
  eexists; exists w', roi. split; [exact Hrun|].
  split; [|split; [|split; [|split; assumption]]].
  - unfold count_roi. rewrite filter_app, count_roi_of_overviews
      by apply repeated_blocks_types. reflexivity.
  - rewrite Hs, !app_assoc. apply last_last.
  - rewrite Hs, app_assoc. eauto.
Qed.

Lemma range_empty start stop : stop <= start -> range start stop = [].
Proof.
  intros H. unfold range. replace (Z.to_nat (stop - start)) with 0%nat by lia.
  reflexivity.
Qed.

Lemma concat_repeat_nil {A} n : List.concat (repeat (@nil A) n) = [].
Proof. induction n as [|n IH]; cbn; [reflexivity | exact IH]. Qed.

(** C2 at its failing input: when the requested count is 1 -- one of the
    three values [random.randint(1, 3)] gives the driving loop -- the
    inner loop runs over the empty [range(1, 1)] and the composer returns
    the RegionOfInterest descriptor alone, in every world; the record
    assembled in [world0] is such a record, with no Overview image. *)
Theorem C2_record_without_overview :
  (forall transaction_id plate_number plate_state plate_type (w : World),
     exists w',
       generate_vehicle_images transaction_id plate_number plate_state plate_type
         None 1 w =
       Returned [mkVehicleImage (plateroi_path transaction_id) "2"] w') /\
  (exists record,
     returned_value (make_record 0 86400000000 world0) = Some record /\
     count_overview (vehicle_images record) = 0%nat /\
     count_roi (vehicle_images record) = 1%nat).
Proof.
  split.
  - intros transaction_id plate_number plate_state plate_type w.
    destruct (proj1 (wp_returned _ _ _)
                (generate_vehicle_images_spec transaction_id plate_number plate_state
                   plate_type None 1 w eq_refl))
      as (images & w' & Hrun & Hi & _).
    exists w'. rewrite Hrun, Hi. unfold overview_block.
    rewrite range_empty by lia. cbn [map]. now rewrite concat_repeat_nil.
  - eexists. split; [vm_compute; reflexivity|]. split; reflexivity.
Qed.




(** ** Repeated file names *)

Lemma count_occ_two_blocks {A} (eq_dec : forall x y : A, {x = y} + {x <> y})
      (x : A) (rest : list A) (n : nat) :
  (2 <= n)%nat ->
  (2 <= count_occ eq_dec (List.concat (repeat (x :: rest) n)) x)%nat.
Proof.
  intros Hn. destruct n as [|[|n]]; [lia | lia |].
  cbn [repeat List.concat]. rewrite !count_occ_app, !count_occ_cons_eq by reflexivity.
  lia.
Qed.

(** C10: whenever the outer loop of the composer takes more than one
    turn and [max_vehicle_images > 1], the returned list names the same
    file more than once: the Overview path of index 1 occurs at least
    twice among the [image_file] entries, so the entries are not
    pairwise distinct, and that path is saved at least twice during the
    call, each save replacing the file of the earlier one. *)
Theorem C10_overview_paths_repeat :
  forall transaction_id plate_number plate_state plate_type vehicle_type_distribution
         max_vehicle_images (w : World),
    usable_distribution vehicle_type_distribution = true ->
    1 < outer_turns w ->
    1 < max_vehicle_images ->
    exists images w' saves,
      generate_vehicle_images transaction_id plate_number plate_state plate_type
        vehicle_type_distribution max_vehicle_images w = Returned images w' /\
      saved w' = saved w ++ saves /\
      ~ NoDup (map image_file images) /\
      (2 <= count_occ string_dec (map image_file images)
              (overview_path transaction_id 1))%nat /\
      (2 <= count_occ string_dec (map fst saves) (overview_path transaction_id 1))%nat.
Proof.
  intros transaction_id plate_number plate_state plate_type vehicle_type_distribution
         max_vehicle_images w Hu Hturns Hmax.
  destruct (proj1 (wp_returned _ _ _)
              (generate_vehicle_images_spec transaction_id plate_number plate_state
                 plate_type vehicle_type_distribution max_vehicle_images w Hu))
    as (images & w' & Hrun & Hi & imgs & roi & Hl & Hs & _).
  exists images, w'. eexists. split; [exact Hrun|]. split; [exact Hs|].
  assert (Hrange : exists rest, range 1 max_vehicle_images = 1 :: rest).
  { unfold range. destruct (Z.to_nat (max_vehicle_images - 1)) eqn:E; [lia|].
    cbn [seq map]. eexists. reflexivity. }
  destruct Hrange as (rest & Hrange).
  assert (Hnames :
            (2 <= count_occ string_dec (map image_file images)
                    (overview_path transaction_id 1))%nat).
  { subst images. rewrite map_app, count_occ_app, concat_map, map_repeat.
    unfold overview_block. rewrite Hrange. cbn [map image_file].
    pose proof (count_occ_two_blocks string_dec (overview_path transaction_id 1)
                  (map image_file
                     (map (fun i => mkVehicleImage (overview_path transaction_id i) "1") rest))
                  (Z.to_nat (outer_turns w)) ltac:(lia)).
    lia. }
  split; [|split; [exact Hnames|]].
  - intros Hnd. pose proof (proj1 (NoDup_count_occ string_dec _) Hnd
                              (overview_path transaction_id 1)). lia.
  - rewrite map_app, count_occ_app, concat_map, map_map.
    destruct imgs as [|img1 [|img2 imgs]]; cbn [List.length] in Hl; [lia | lia |].
    cbn [map List.concat]. unfold overview_saves. rewrite Hrange. cbn [map fst].
    rewrite !count_occ_app, !count_occ_cons_eq by reflexivity. lia.
Qed.

Lemma C10_overview_paths_repeat_witness :
  exists images w' saves,
    generate_vehicle_images "t" "ABC1234"
      (mkPlateState "Ohio" "OH" (1 # 10) "AAA####" None) None None 2
      (world_of [0; 0; 1]%N) = Returned images w' /\
    saved w' = saved (world_of [0; 0; 1]%N) ++ saves /\
    ~ NoDup (map image_file images) /\
    (2 <= count_occ string_dec (map image_file images) (overview_path "t" 1))%nat /\
    (2 <= count_occ string_dec (map fst saves) (overview_path "t" 1))%nat.
Proof.
  apply (C10_overview_paths_repeat "t" "ABC1234"
           (mkPlateState "Ohio" "OH" (1 # 10) "AAA####" None) None None 2
           (world_of [0; 0; 1]%N)); reflexivity.
Defined.

(** ** Record assembly *)

Ltac keep H Hnew :=
  let H' := fresh "Hframe" in
  pose proof (only_saves_trans _ _ _ H (same_outputs_only_saves _ _ Hnew)) as H';
  clear H Hnew; rename H' into H.

Lemma wp_uuid_uuid4 (Q : N -> World -> Prop) w :
  (forall u w', same_outputs w w' -> Q u w') -> wp uuid_uuid4 Q w.
Proof.
  intros H. unfold uuid_uuid4. apply wp_bind, wp_draw. intros r w' Hs.
  apply wp_ret, H, Hs.
Qed.

Lemma wp_random_plate_state (Q : PlateStateInfo -> World -> Prop) w :
  (forall info w', In info (map snd PLATE_STATES) -> same_outputs w w' -> Q info w') ->
  wp random_plate_state Q w.
Proof.
  intros H. unfold random_plate_state.
  apply wp_bind, wp_random_choices; [reflexivity|]. intros state w' Hin Hs.
  cbn in Hin.
  repeat (destruct Hin as [<-|Hin];
          [apply wp_ret, H; [cbn; tauto | exact Hs]|]).
  destruct Hin.
Qed.

Lemma wp_sample_plate_types info (Q : option string -> World -> Prop) w :
  In info (map snd PLATE_STATES) ->
  (forall plate_type w', same_outputs w w' -> Q plate_type w') ->
  wp (sample_plate_types info) Q w.
Proof.
  intros Hin H. cbn in Hin.
  destruct Hin as [<-|Hin].
  { unfold sample_plate_types. cbn [abbreviation state_plate_types String.eqb Ascii.eqb
                                      Bool.eqb].
    apply wp_bind, wp_random_choice; [discriminate|]. intros x w' _ Hs.
    apply wp_ret, H, Hs. }
  repeat (destruct Hin as [<-|Hin]; [apply wp_ret, H, same_outputs_refl|]).
  destruct Hin.
Qed.

Lemma wp_random_date start_date end_date (Q : Z -> World -> Prop) w :
  start_date <= end_date ->
  (forall dt w', same_outputs w w' -> Q dt w') ->
  wp (random_date start_date end_date) Q w.
Proof.
  intros Hle H. unfold random_date, int_total_seconds.
  apply wp_bind, wp_random_randint.
  - apply Z.quot_pos; lia.
  - intros v w' _ Hs. apply wp_ret, H, Hs.
Qed.

Lemma wp_maybe {A} (value : Gen A) (Q : option A -> World -> Prop) w :
  (forall w1, same_outputs w w1 ->
              wp value (fun _ w2 => same_outputs w1 w2) w1) ->
  (forall v w', same_outputs w w' -> Q v w') ->
  wp (maybe value) Q w.
Proof.
  intros Hv H. unfold maybe. apply wp_bind, wp_random_random. intros r w1 H1.
  destruct (negb _).
  - apply wp_bind. eapply wp_mono; [|apply (Hv w1 H1)].
    intros v w2 H2. apply wp_ret, H. eapply same_outputs_trans; eassumption.
  - apply wp_ret, H, H1.
Qed.

Lemma wp_random_uniform a b (Q : Q -> World -> Prop) w :
  (forall x w', same_outputs w w' -> Q x w') -> wp (random_uniform a b) Q w.
Proof.
  intros H. unfold random_uniform. apply wp_bind, wp_random_random.
  intros r w' Hs. apply wp_ret, H, Hs.
Qed.

(** Assembling one record returns, whatever the draws, and writes
    nothing but image files. *)
Lemma make_record_spec start_date end_date w :
  start_date <= end_date ->
  wp (make_record start_date end_date)
     (fun record w' => count_roi (vehicle_images record) = 1%nat /\ only_saves w w') w.
Proof.
  intros Hle. unfold make_record.
  pose proof (only_saves_refl w) as F.
  apply wp_bind, wp_uuid_uuid4. intros u w1 H1. keep F H1.
  apply wp_bind, wp_random_plate_state. intros info w2 Hinfo H2. keep F H2.
  apply wp_bind. eapply wp_mono; [|apply random_plate_number_spec].
  intros plate_number w3 [_ H3]. keep F H3.
  apply wp_bind, wp_sample_plate_types; [exact Hinfo|]. intros plate_type w4 H4. keep F H4.
  apply wp_bind, wp_random_randint; [lia|]. intros image_count w5 _ H5. keep F H5.
  apply wp_bind. apply wp_returned.
  destruct (composer_roi_invariant (uuid_str u) plate_number info plate_type None
              image_count w5 eq_refl)
    as (images & w6 & roi & Hrun & Hroi & _).
  pose proof (generate_vehicle_images_spec (uuid_str u) plate_number info plate_type None
                image_count w5 eq_refl) as Hspec.
  unfold wp in Hspec. rewrite Hrun in Hspec. destruct Hspec as (_ & _ & _ & _ & _ & _ & _ & H6).
  pose proof (only_saves_trans _ _ _ F H6) as F'. clear F H6. rename F' into F.
  exists images, w6. split; [exact Hrun|].
  apply wp_bind, wp_random_date; [exact Hle|]. intros dt w7 H7. keep F H7.
  apply wp_bind, wp_random_randint; [lia|]. intros location w8 _ H8. keep F H8.
  apply wp_bind, wp_random_randint; [lia|]. intros location_type w9 _ H9. keep F H9.
  apply wp_bind, wp_random_randint; [lia|]. intros lane w10 _ H10. keep F H10.
  apply wp_bind, wp_maybe.
  { intros wa _. apply wp_bind, wp_random_randint; [lia|]. intros i wb _ Hb.
    apply wp_ret, Hb. }
  intros tag_agency w11 H11. keep F H11.
  apply wp_bind, wp_maybe.
  { intros wa _. apply wp_bind, wp_random_randint; [lia|]. intros i wb _ Hb.
    apply wp_ret, Hb. }
  intros tag_number w12 H12. keep F H12.
  apply wp_bind, wp_random_randint; [lia|]. intros vehicle_class w13 _ H13. keep F H13.
  apply wp_bind, wp_random_randint; [lia|]. intros axles w14 _ H14. keep F H14.
  apply wp_bind, wp_random_randint; [lia|]. intros camera w15 _ H15. keep F H15.
  apply wp_bind, wp_random_choice; [discriminate|]. intros orientation w16 _ H16. keep F H16.
  apply wp_bind, wp_random_randint; [lia|]. intros direction w17 _ H17. keep F H17.
  apply wp_bind, wp_random_uniform. intros lat w18 H18. keep F H18.
  apply wp_bind, wp_random_uniform. intros lon w19 H19. keep F H19.
  apply wp_ret. split; [exact Hroi | exact F].
Qed.

(** ** The driving loop and the dispatch of batches *)

Lemma send_or_save_spec batch w :
  wp (send_or_save batch)
     (fun _ w' => (exists file_name, dumped w' = dumped w ++ [(file_name, batch)]) /\
                  file_sink_only w w') w.
Proof.
  unfold send_or_save, USE_AZURE_SERVICE_BUS.
  apply wp_bind, wp_uuid_uuid4. intros u w1 (Ht & Ha & _ & Hd & Hq & _).
  apply wp_bind. unfold json_dump_to at 1, wp at 1.
  unfold print, wp. cbn [dumped tape asset sent].
  rewrite Hd. split; [eexists; reflexivity | repeat split; assumption].
Qed.

Lemma div_mod_step_full n size :
  0 <= n -> 0 < size -> n mod size + 1 = size ->
  (n + 1) / size = n / size + 1 /\ (n + 1) mod size = 0.
Proof.
  intros Hn Hs Hfull.
  pose proof (Z.div_mod n size ltac:(lia)) as E.
  assert (E' : n + 1 = size * (n / size + 1) + 0) by lia.
  split; symmetry.
  - apply (Z.div_unique _ _ _ 0); [lia | exact E'].
  - apply (Z.mod_unique _ _ (n / size + 1)); [lia | exact E'].
Qed.

Lemma div_mod_step_part n size :
  0 <= n -> 0 < size -> n mod size + 1 <> size ->
  (n + 1) / size = n / size /\ (n + 1) mod size = n mod size + 1.
Proof.
  intros Hn Hs Hpart.
  pose proof (Z.mod_pos_bound n size Hs) as Hb.
  pose proof (Z.div_mod n size ltac:(lia)) as E.
  assert (E' : n + 1 = size * (n / size) + (n mod size + 1)) by lia.
  split; symmetry.
  - apply (Z.div_unique _ _ _ (n mod size + 1)); [lia | exact E'].
  - apply (Z.mod_unique _ _ (n / size)); [lia | exact E'].
Qed.

Lemma offer_records_spec start_date end_date total_records batch_size w :
  start_date <= end_date ->
  wp (offer_records start_date end_date total_records batch_size)
     (offered w batch_size (Z.to_nat total_records)) w.
Proof.
  intros Hle. unfold offer_records.
  assert (Hlen : Z.to_nat total_records = List.length (range 0 total_records))
    by (rewrite length_range; f_equal; lia).
  rewrite Hlen.
  apply (wp_for_each _ (fun done st w' => offered w batch_size (List.length done) st w')
           (range 0 total_records) [] ([], 0) w).
  - repeat split. exists []. split; [exists []; now rewrite app_nil_r|].
    split; [constructor|].
    split; [reflexivity|]. intros Hs. cbn [List.length fst map].
    rewrite Z.div_0_l, Z.mod_0_l by lia. split; reflexivity.
  - intros i done [batch record_count] w1
           (Hc & (Ht & Ha & Hq) & flushes & (files & Hd & Hf) & Hne & Hsum & Hsz).
    cbn [fst snd] in *.
    apply wp_bind. eapply wp_mono; [|apply (make_record_spec _ _ w1 Hle)].
    intros record w2 (_ & Ht2 & Ha2 & Hd2 & Hq2 & _).
    assert (Hnext : Z.of_nat (List.length (done ++ [i])) = Z.of_nat (List.length done) + 1)
      by (rewrite length_app; cbn [List.length]; lia).
    assert (Hone : List.length (done ++ [i]) = S (List.length done))
      by (rewrite length_app; cbn [List.length]; lia).
    assert (Hbatch1 : List.length (batch ++ [record]) = S (List.length batch))
      by (rewrite length_app; cbn [List.length]; lia).
    unfold offered. rewrite Hnext, Hone.
    destruct (Z.eqb_spec (Z.of_nat (List.length (batch ++ [record]))) batch_size)
      as [Hfull|Hpart].
    + apply wp_bind. eapply wp_mono; [|apply send_or_save_spec].
      intros _ w3 ((file_name & Hd3) & Ht3 & Ha3 & Hq3). apply wp_ret.
      split; [cbn [snd]; lia|]. split; [repeat split; congruence|].
      exists (flushes ++ [batch ++ [record]]). split; [|split; [|split]].
      * eexists. split; [rewrite Hd3, Hd2, Hd, <- app_assoc; reflexivity|].
        rewrite map_app, Hf. reflexivity.
      * apply Forall_app. split; [exact Hne|]. constructor; [|constructor].
        intros E. apply app_eq_nil in E. destruct E as [_ E]. discriminate E.
      * rewrite concat_app, length_app. cbn [List.concat fst List.length].
        rewrite app_nil_r, Hbatch1. lia.
      * intros Hs. destruct (Hsz Hs) as [Hsizes Hbatch].
        rewrite Hbatch1 in Hfull.
        destruct (div_mod_step_full (Z.of_nat (List.length done)) batch_size)
          as [Hdiv Hmod]; [lia | lia | lia |].
        rewrite Hdiv, Hmod, map_app, Hsizes. cbn [map fst List.length].
        split; [|reflexivity].
        replace (Z.to_nat (Z.of_nat (List.length done) / batch_size + 1))
          with (S (Z.to_nat (Z.of_nat (List.length done) / batch_size)))
          by (pose proof (Z.div_pos (Z.of_nat (List.length done)) batch_size); lia).
        rewrite Hbatch1, Hfull. cbn [repeat]. now rewrite repeat_cons.
    + apply wp_ret.
      split; [cbn [snd]; lia|]. split; [repeat split; congruence|].
      exists flushes. split; [|split; [|split]].
      * exists files. split; [congruence | exact Hf].
      * exact Hne.
      * cbn [fst]. rewrite Hbatch1. lia.
      * intros Hs. destruct (Hsz Hs) as [Hsizes Hbatch].
        rewrite Hbatch1 in Hpart.
        destruct (div_mod_step_part (Z.of_nat (List.length done)) batch_size)
          as [Hdiv Hmod]; [lia | lia | lia |].
        rewrite Hdiv, Hmod. cbn [fst]. rewrite Hbatch1.
        split; [exact Hsizes | lia].
Qed.

Lemma timedelta_days_nonneg start_date end_date :
  start_date <= end_date -> 0 <= timedelta_days (end_date - start_date).
Proof. intros H. unfold timedelta_days. apply Z.div_pos; lia. Qed.

(** The whole run: the loop, the flush of the remainder, the total. *)
Lemma generate_traffic_data_spec start_date end_date average_daily_volume batch_size w :
  start_date <= end_date ->
  wp (generate_traffic_data start_date end_date average_daily_volume batch_size)
     (fun _ w' =>
        let n := Z.to_nat (average_daily_volume *
                           timedelta_days (end_date - start_date)) in
        file_sink_only w w' /\
        last (stdout w') "" =
          String.append "Total records generated: " (str (Z.of_nat n)) /\
        exists flushes,
          flushes_between w w' flushes /\
          Forall (fun b => b <> []) flushes /\
          List.length (List.concat flushes) = n /\
          (0 < batch_size ->
           map (fun b => Z.of_nat (List.length b)) flushes =
             repeat batch_size (Z.to_nat (Z.of_nat n / batch_size)) ++
             (if Z.of_nat n mod batch_size =? 0 then []
              else [Z.of_nat n mod batch_size]))) w.
Proof.
  intros Hle. unfold generate_traffic_data. apply wp_bind.
  eapply wp_mono; [|apply (offer_records_spec _ _ _ _ w Hle)].
  intros [batch record_count] w1
         (Hc & (Ht & Ha & Hq) & flushes & (files & Hd & Hf) & Hne & Hsum & Hsz).
  cbn [fst snd] in *. cbv zeta. subst record_count.
  set (n := Z.to_nat (average_daily_volume * timedelta_days (end_date - start_date))) in *.
  destruct batch as [|record batch].
  - apply wp_bind, wp_ret. unfold print, wp. cbn [tape asset sent stdout dumped].
    split; [repeat split; assumption|]. split; [apply last_last|].
    exists flushes. split; [exists files; auto|]. split; [exact Hne|].
    split; [cbn [List.length] in Hsum; lia|].
    intros Hs. destruct (Hsz Hs) as [Hsizes Hbatch]. cbn [List.length] in Hbatch.
    rewrite <- Hbatch. cbn. now rewrite app_nil_r.
  - apply wp_bind. eapply wp_mono; [|apply send_or_save_spec].
    intros _ w2 ((file_name & Hd2) & Ht2 & Ha2 & Hq2).
    unfold print, wp, file_sink_only. cbn [tape asset sent stdout dumped].
    split; [repeat split; congruence|]. split; [apply last_last|].
    exists (flushes ++ [record :: batch]). split; [|split; [|split]].
    + eexists. split; [rewrite Hd2, Hd, <- app_assoc; reflexivity|].
      rewrite map_app, Hf. reflexivity.
    + apply Forall_app. split; [exact Hne|]. repeat constructor. discriminate.
    + rewrite concat_app, length_app. cbn [List.concat]. rewrite app_nil_r. exact Hsum.
    + intros Hs. destruct (Hsz Hs) as [Hsizes Hbatch].
      rewrite map_app, Hsizes. cbn [map]. f_equal.
      rewrite <- Hbatch.
      destruct (Z.eqb_spec (Z.of_nat (List.length (record :: batch))) 0) as [E|_];
        [cbn [List.length] in E; lia | reflexivity].
Qed.

Lemma ceil_div_cases total size :
  0 <= total -> 0 < size ->
  ceil_div total size =
  total / size + (if total mod size =? 0 then 0 else 1).
Proof.
  intros Ht Hs. unfold ceil_div.
  pose proof (Z.div_mod total size ltac:(lia)) as E.
  pose proof (Z.mod_pos_bound total size Hs) as Hb.
  symmetry. destruct (Z.eqb_spec (total mod size) 0) as [Hz|Hnz].
  - apply (Z.div_unique _ _ _ (size - 1)); lia.
  - apply (Z.div_unique _ _ _ (total mod size - 1)); lia.
Qed.

(** C4: for every run that offers [totalRecords] records to a dispatcher
    with batch size [batchSize > 0], the batch files written are, in
    order, one of exactly [batchSize] records for every [batchSize]
    consecutive records, then one of the remainder [r], [0 < r <
    batchSize], when [totalRecords mod batchSize <> 0]; their number is
    [ceil(totalRecords / batchSize)] when [totalRecords > 0] and zero
    when [totalRecords = 0]. *)
Theorem C4_flushes_every_batch_size_then_remainder :
  forall (start_date end_date average_daily_volume batch_size : Z) (w : World),
    start_date <= end_date ->
    0 <= average_daily_volume ->
    0 < batch_size ->
    let total_records :=
      average_daily_volume * timedelta_days (end_date - start_date) in
    exists w' flushes,
      generate_traffic_data start_date end_date average_daily_volume batch_size w =
        Returned tt w' /\
      flushes_between w w' flushes /\
      map (fun b => Z.of_nat (List.length b)) flushes =
        repeat batch_size (Z.to_nat (total_records / batch_size)) ++
        (if total_records mod batch_size =? 0 then []
         else [total_records mod batch_size]) /\
      0 <= total_records mod batch_size < batch_size /\
      Z.of_nat (List.length flushes) =
        (if total_records =? 0 then 0 else ceil_div total_records batch_size) /\
      Z.of_nat (List.length (List.concat flushes)) = total_records.
Proof.
  intros start_date end_date average_daily_volume batch_size w Hle Hv Hs total_records.
  pose proof (timedelta_days_nonneg _ _ Hle) as Hd.
  assert (Ht : 0 <= total_records) by (subst total_records; nia).
  destruct (proj1 (wp_returned _ _ _)
              (generate_traffic_data_spec start_date end_date average_daily_volume
                 batch_size w Hle))
    as ([] & w' & Hrun & _ & _ & flushes & Hfl & _ & Hsum & Hsz).
  fold total_records in Hsum, Hsz.
  rewrite Z2Nat.id in Hsz by exact Ht.
  specialize (Hsz Hs).
  exists w', flushes. split; [exact Hrun|]. split; [exact Hfl|]. split; [exact Hsz|].
  split; [apply Z.mod_pos_bound, Hs|]. split; [|lia].
  apply (f_equal (@List.length Z)) in Hsz.
  rewrite length_map, length_app, repeat_length in Hsz. rewrite Hsz.
  pose proof (Z.div_pos total_records batch_size Ht Hs) as Hq.
  rewrite (ceil_div_cases total_records batch_size Ht Hs).
  destruct (Z.eqb_spec total_records 0) as [E|_].
  - rewrite E, Z.div_0_l, Z.mod_0_l by lia. reflexivity.
  - destruct (total_records mod batch_size =? 0); cbn [List.length]; lia.
Qed.

Lemma C4_flushes_every_batch_size_then_remainder_witness :
  exists w' flushes,
    generate_traffic_data 0 86400000000 10 3 world0 = Returned tt w' /\
    flushes_between world0 w' flushes /\
    map (fun b => Z.of_nat (List.length b)) flushes = [3; 3; 3; 1] /\
    0 <= 1 < 3 /\
    Z.of_nat (List.length flushes) = 4 /\
    Z.of_nat (List.length (List.concat flushes)) = 10.
Proof.
  apply (C4_flushes_every_batch_size_then_remainder 0 86400000000 10 3 world0); lia.
Defined.



(** Outside the hypotheses of C5: a product that is not positive makes
    [range(total_records)] empty, and the run prints a total of 0. *)
Lemma no_records_without_positive_total start_date end_date average_daily_volume
      batch_size w :
  average_daily_volume * timedelta_days (end_date - start_date) <= 0 ->
  generate_traffic_data start_date end_date average_daily_volume batch_size w =
    Returned tt
      (mkWorld (tape w) (cursor w) (asset w) (saved w) (dumped w) (sent w)
         (stdout w ++ ["Total records generated: 0"])).
Proof.
  intros H. unfold generate_traffic_data, offer_records.
  rewrite range_empty by lia. reflexivity.
Qed.

(** ** The queue sender's batch of messages *)

Lemma fill_turn_run (held : list string) (b : servicebus_send.Bus) :
  try_except
    (added <- servicebus_send.add_message held servicebus_send.the_message ;;
     ret (Next added))
    ValueError
    (ret (Break held)) b =
  Returned
    (if servicebus_send.accepts b held servicebus_send.the_message
     then Next (held ++ [servicebus_send.the_message]) else Break held)
    (servicebus_send.mkBus (servicebus_send.accepts b)
       (servicebus_send.add_calls b ++ [servicebus_send.the_message])
       (servicebus_send.published b)).
Proof.
  unfold try_except, bind, servicebus_send.add_message, ret.
  destruct (servicebus_send.accepts b held servicebus_send.the_message); reflexivity.
Qed.

Lemma fill_loop_spec (xs : list Z) :
  forall (held : list string) (b : servicebus_send.Bus),
  exists held' b' k,
    for_each_break xs
      (fun _ batch_message =>
         try_except
           (added <- servicebus_send.add_message batch_message
                       servicebus_send.the_message ;;
            ret (Next added))
           ValueError
           (ret (Break batch_message)))
      held b = Returned held' b' /\
    servicebus_send.accepts b' = servicebus_send.accepts b /\
    servicebus_send.published b' = servicebus_send.published b /\
    held' = held ++ repeat servicebus_send.the_message k /\
    (forall j, (j < k)%nat ->
       servicebus_send.accepts b (held ++ repeat servicebus_send.the_message j)
         servicebus_send.the_message = true) /\
    ((k = List.length xs /\
      servicebus_send.add_calls b' =
        servicebus_send.add_calls b ++ repeat servicebus_send.the_message k) \/
     ((k < List.length xs)%nat /\
      servicebus_send.accepts b (held ++ repeat servicebus_send.the_message k)
        servicebus_send.the_message = false /\
      servicebus_send.add_calls b' =
        servicebus_send.add_calls b ++ repeat servicebus_send.the_message (S k))).
Proof.
  induction xs as [|x xs IH]; intros held b.
  - exists held, b, 0%nat. cbn [for_each_break repeat List.length].
    rewrite !app_nil_r. repeat split; [intros j Hj; lia | left; split; reflexivity].
  - cbn [for_each_break]. unfold bind at 1. cbv beta. rewrite fill_turn_run.
    destruct (servicebus_send.accepts b held servicebus_send.the_message) eqn:Eacc.
    + destruct (IH (held ++ [servicebus_send.the_message])
                   (servicebus_send.mkBus (servicebus_send.accepts b)
                      (servicebus_send.add_calls b ++ [servicebus_send.the_message])
                      (servicebus_send.published b)))
        as (held' & b' & k & Hrun & Hacc & Hpub & Hheld & Hbefore & Hend).
      cbn [servicebus_send.accepts servicebus_send.published servicebus_send.add_calls]
        in *.
      exists held', b', (S k). rewrite Hrun.
      split; [reflexivity|]. split; [exact Hacc|]. split; [exact Hpub|].
      split; [rewrite Hheld, <- app_assoc; reflexivity|].
      split.
      * intros [|j] Hj; cbn [repeat].
        -- rewrite app_nil_r. exact Eacc.
        -- specialize (Hbefore j ltac:(lia)). rewrite <- app_assoc in Hbefore.
           exact Hbefore.
      * destruct Hend as [(Hk & Hcalls)|(Hk & Hfull & Hcalls)].
        -- left. split; [cbn [List.length]; lia|].
           rewrite Hcalls, <- app_assoc. reflexivity.
        -- right. split; [cbn [List.length]; lia|]. split.
           ++ rewrite <- app_assoc in Hfull. exact Hfull.
           ++ rewrite Hcalls, <- app_assoc. reflexivity.
    + eexists held, _, 0%nat. split; [reflexivity|].
      cbn [servicebus_send.accepts servicebus_send.published servicebus_send.add_calls
             repeat List.length].
      rewrite !app_nil_r. repeat split; [intros j Hj; lia|].
      right. split; [lia|]. split; [exact Eacc | reflexivity].
Qed.

(** C8: for every sender, [send_batch_message] fills one batch and
    sends it.  Either all ten messages are accepted, or the batch
    primitive reports a capacity error ([ValueError]) at some message;
    then no further [add_message] call is made for that batch, the batch
    is sent with the messages accepted before, and the call returns: the
    error is not propagated. *)
Theorem C8_capacity_error_ends_filling_and_batch_is_sent :
  forall (b : servicebus_send.Bus),
  exists b' k,
    servicebus_send.send_batch_message b = Returned tt b' /\
    servicebus_send.published b' =
      servicebus_send.published b ++ [repeat servicebus_send.the_message k] /\
    (forall j, (j < k)%nat ->
       servicebus_send.accepts b (repeat servicebus_send.the_message j)
         servicebus_send.the_message = true) /\
    ((k = 10%nat /\
      servicebus_send.add_calls b' =
        servicebus_send.add_calls b ++ repeat servicebus_send.the_message 10) \/
     ((k < 10)%nat /\
      servicebus_send.accepts b (repeat servicebus_send.the_message k)
        servicebus_send.the_message = false /\
      servicebus_send.add_calls b' =
        servicebus_send.add_calls b ++ repeat servicebus_send.the_message (S k))).
Proof.
  intros b. unfold servicebus_send.send_batch_message.
  destruct (fill_loop_spec (range 0 10) [] b)
    as (held' & b' & k & Hrun & Hacc & Hpub & Hheld & Hbefore & Hend).
  cbn [app] in Hheld, Hbefore, Hend.
  change (List.length (range 0 10)) with 10%nat in Hend.
  eexists; exists k.
  unfold bind at 1, servicebus_send.create_message_batch, ret at 1.
  unfold bind at 1. rewrite Hrun. unfold servicebus_send.send_messages.
  split; [reflexivity|].
  cbn [servicebus_send.published servicebus_send.add_calls].
  rewrite Hpub, Hheld. split; [reflexivity|]. split; [exact Hbefore|].
  destruct Hend as [(Hk & Hcalls)|Hfull]; [left | right; exact Hfull].
  split; [exact Hk | rewrite Hcalls, Hk; reflexivity].
Qed.

(** A sender whose batches hold three messages: the fourth
    [add_message] raises, no fifth is attempted, three are sent. *)
Example send_batch_message_capacity_3 :
  servicebus_send.send_batch_message (servicebus_send.bus_of_capacity 3) =
  Returned tt
    (servicebus_send.mkBus
       (servicebus_send.accepts (servicebus_send.bus_of_capacity 3))
       (repeat servicebus_send.the_message 4)
       [repeat servicebus_send.the_message 3]).
Proof. reflexivity. Qed.

(** Also outside the hypotheses of C5: with the dates reversed and a
    negative volume the product is positive, the loop body runs, and
    [random_date] raises on its empty range of seconds. *)
Example reversed_dates_negative_volume_raises :
  raised_exception (generate_traffic_data 86400000000 0 (-1) 10 world0) =
  Some ValueError.
Proof. vm_compute. reflexivity. Qed.

(** * Further properties of the code *)

(** ** [random_date] *)

Lemma random_date_run :
  forall (start_date end_date : Z) (w : World),
    start_date <= end_date ->
    exists dt,
      random_date start_date end_date w = Returned dt (advance PyRandom w) /\
      start_date <= dt <= end_date /\
      (dt - start_date) mod 1000000 = 0.
Proof.
  intros start_date end_date w Hle. unfold random_date, int_total_seconds.
  set (delta := end_date - start_date).
  assert (Hq : 0 <= Z.quot delta 1000000) by (apply Z.quot_pos; lia).
  unfold bind. rewrite random_randint_run by exact Hq. unfold ret.
  eexists. split; [reflexivity|].
  set (k := Z.of_N (tape w PyRandom (cursor w PyRandom))).
  pose proof (Z.mod_pos_bound k (Z.quot delta 1000000 - 0 + 1) ltac:(lia)) as Hk.
  rewrite Z.quot_div_nonneg in * by lia.
  pose proof (Z.mul_div_le delta 1000000 ltac:(lia)) as Hd.
  split; [subst delta; lia|].
  replace (start_date + (0 + k mod (delta / 1000000 - 0 + 1)) * 1000000 - start_date)
    with ((k mod (delta / 1000000 - 0 + 1)) * 1000000) by lia.
  apply Z.mod_mul. lia.
Qed.



(** X2: when the end date lies a second or more before the start date,
    [random_date] raises [ValueError] (the range of seconds is empty)
    and draws nothing. *)
Theorem X2_random_date_reversed_raises :
  forall (start_date end_date : Z) (w : World),
    end_date + 1000000 <= start_date ->
    random_date start_date end_date w = Raised ValueError w.
Proof.
  intros start_date end_date w H. unfold random_date, int_total_seconds, bind,
    random_randint.
  assert (Hq : Z.quot (end_date - start_date) 1000000 < 0).
  { replace (end_date - start_date) with (- (start_date - end_date)) by lia.
    rewrite Z.quot_opp_l, Z.quot_div_nonneg by lia.
    pose proof (Z.div_le_lower_bound (start_date - end_date) 1000000 1
                  ltac:(lia) ltac:(lia)).
    lia. }
  destruct (Z.ltb_spec (Z.quot (end_date - start_date) 1000000) 0); [reflexivity | lia].
Qed.

Lemma X2_random_date_reversed_raises_witness :
  random_date 1734566400000000 1734480000000000 world0 = Raised ValueError world0.
Proof.
  apply (X2_random_date_reversed_raises 1734566400000000 1734480000000000 world0).
  lia.
Defined.

(** X3: when the end date lies less than a second before the start
    date, the truncated number of seconds is 0 and [random_date] returns
    the start date, which is after the end date. *)
Theorem X3_random_date_subsecond_reversal_returns_start :
  forall (start_date end_date : Z) (w : World),
    end_date < start_date < end_date + 1000000 ->
    random_date start_date end_date w = Returned start_date (advance PyRandom w).
Proof.
  intros start_date end_date w H. unfold random_date, int_total_seconds.
  assert (Hq : Z.quot (end_date - start_date) 1000000 = 0)
    by (apply Z.quot_small_iff; lia).
  rewrite Hq. unfold bind. rewrite random_randint_run by lia. unfold ret.
  change (0 - 0 + 1) with 1. rewrite Z.mod_1_r. f_equal. lia.
Qed.

Lemma X3_random_date_subsecond_reversal_returns_start_witness :
  random_date 1734480000500000 1734480000000000 world0 =
    Returned 1734480000500000 (advance PyRandom world0).
Proof.
  apply (X3_random_date_subsecond_reversal_returns_start
           1734480000500000 1734480000000000 world0).
  lia.
Defined.

(** ** Weighted choice follows the weights *)






Lemma unit_fraction_bounds k : (0 <= unit_fraction k < 1)%Q.
Proof.
  unfold unit_fraction, Qle, Qlt. cbn [Qnum Qden].
  pose proof (N.mod_lt k (2 ^ 53)%N ltac:(discriminate)) as H.
  change (2 ^ 53)%positive with 9007199254740992%positive.
  change (2 ^ 53)%N with 9007199254740992%N in *.
  generalize dependent (k mod 9007199254740992)%N. intros m Hm. lia.
Qed.



(** ** The effect engine, effect by effect *)

Lemma advance_by_frame s n w :
  same_outputs w (advance_by s n w) /\
  cursor (advance_by s n w) s = (cursor w s + n)%nat /\
  (forall s', s' <> s -> cursor (advance_by s n w) s' = cursor w s').
Proof.
  unfold advance_by. induction n as [|n (Hs & Hc & Ho)].
  - change (Nat.iter 0 (advance s) w) with w.
    split; [apply same_outputs_refl|]. split; [lia | reflexivity].
  - rewrite Nat.iter_succ. split; [|split].
    + eapply same_outputs_trans; [exact Hs | repeat split].
    + cbn [advance cursor]. destruct s; cbn [Source_eqb]; lia.
    + intros s' Hs'. cbn [advance cursor]. rewrite <- (Ho s' Hs').
      destruct s, s'; cbn [Source_eqb]; congruence.
Qed.

Lemma rain_streak_run img w :
  exists p,
    rain_streak img w = Returned (paint p img) (advance_by PyRandom 4 w) /\
    rain_streak_op (width img) (height img) p.
Proof.
  unfold rain_streak, bind.
  rewrite random_randint_run by lia.
  rewrite random_randint_run by lia.
  rewrite random_randint_run by lia.
  rewrite random_randint_run by lia.
  unfold ret. eexists. split; [reflexivity|].
  do 4 eexists. split; [reflexivity|].
  repeat match goal with
         | |- context [?k mod ?m] =>
             let H := fresh "Hmod" in
             pose proof (Z.mod_pos_bound k m ltac:(lia)) as H;
             generalize dependent (k mod m); intros
         end.
  lia.
Qed.

Lemma rain_loop_run (xs : list Z) :
  forall img w,
  exists lines,
    for_each xs (fun _ img_pil => rain_streak img_pil) img w =
      Returned (mkImage (mode img) (width img) (height img) (pixels img ++ lines))
        (advance_by PyRandom (4 * List.length xs) w) /\
    List.length lines = List.length xs /\
    Forall (rain_streak_op (width img) (height img)) lines.
Proof.
  induction xs as [|x xs IH]; intros img w.
  - exists []. cbn [for_each List.length]. rewrite app_nil_r. destruct img.
    repeat split. constructor.
  - destruct (rain_streak_run img w) as (p & Hrun & Hp).
    destruct (IH (paint p img) (advance_by PyRandom 4 w)) as (lines & Hloop & Hlen & Hall).
    exists (p :: lines). cbn [for_each]. unfold bind at 1. rewrite Hrun, Hloop.
    cbn [paint mode width height pixels List.length].
    rewrite <- app_assoc. split; [|split].
    + f_equal. unfold advance_by. rewrite <- Nat.iter_add. f_equal. lia.
    + lia.
    + constructor; assumption.
Qed.

Lemma ensure_grayscale_single_channel image :
  mode image <> RGBA ->
  mode (ensure_grayscale image) = L /\
  width (ensure_grayscale image) = width image /\
  height (ensure_grayscale image) = height image.
Proof.
  intros H. rewrite ensure_grayscale_cases.
  destruct (mode image) eqn:E; [rewrite E | | contradiction]; repeat split.
Qed.

Lemma apply_effects_rainy_run :
  forall (image : Image) (w : World),
    mode image <> RGBA ->
    exists lines,
      apply_effects image "rainy" w =
        Returned
          (mkImage L (width image) (height image)
             (pixels (ensure_grayscale image) ++
              [CvtColor "COLOR_GRAY2RGB"] ++ lines ++ [Converted L]))
          (advance_by PyRandom 200 w) /\
      List.length lines = 50%nat /\
      Forall (rain_streak_op (width image) (height image)) lines.
Proof.
  intros image w Hm.
  destruct (ensure_grayscale_single_channel image Hm) as (HL & Hw & Hh).
  unfold apply_effects. cbn [String.eqb Ascii.eqb Bool.eqb].
  unfold bind at 1, cvtColor_GRAY2RGB. rewrite HL. unfold ret at 1.
  destruct (rain_loop_run (range 0 50)
              (paint (CvtColor "COLOR_GRAY2RGB") (with_mode RGB (ensure_grayscale image))) w)
    as (lines & Hloop & Hlen & Hall).
  cbn [paint with_mode mode width height pixels] in Hloop, Hall.
  change (List.length (range 0 50)) with 50%nat in Hloop, Hlen.
  change (4 * 50)%nat with 200%nat in Hloop.
  rewrite Hw, Hh in Hloop, Hall.
  exists lines. unfold bind at 1. rewrite Hloop. unfold ret, paint, with_mode.
  cbn [mode width height pixels]. rewrite <- !app_assoc.
  split; [reflexivity|]. split; [exact Hlen | exact Hall].
Qed.



Lemma apply_effects_shape image effect w :
  mode image <> RGBA ->
  exists img' w',
    apply_effects image effect w = Returned img' w' /\
    mode img' = L /\ width img' = width image /\ height img' = height image /\
    same_outputs w w'.
Proof.
  intros Hm.
  destruct (ensure_grayscale_single_channel image Hm) as (HL & Hw & Hh).
  destruct (String.eqb_spec effect "rainy") as [->|Hrain].
  { destruct (apply_effects_rainy_run image w Hm) as (lines & Hrun & _).
    do 2 eexists. split; [exact Hrun|]. repeat split.
    all: apply (advance_by_frame PyRandom 200 w). }
  unfold apply_effects.
  destruct (String.eqb effect "blurry");
    [do 2 eexists; split; [reflexivity|]; cbn [paint mode width height];
     repeat split; assumption|].
  destruct (String.eqb effect "dirty");
    [do 2 eexists; split; [reflexivity|]; cbn [paint mode width height];
     repeat split; assumption|].
  destruct (String.eqb_spec effect "rainy") as [E|_]; [contradiction|].
  destruct (String.eqb effect "snowy");
    do 2 eexists; (split; [reflexivity|]); cbn [paint mode width height];
    repeat split; assumption.
Qed.






(** ** The plate overlay *)

Lemma overlay_plate_info_shape image x0 y0 x1 y1 plate_number plate_state plate_type :
  mode (overlay_plate_info image (x0, y0, x1, y1) plate_number plate_state plate_type) =
    mode image /\
  width (overlay_plate_info image (x0, y0, x1, y1) plate_number plate_state plate_type) =
    width image /\
  height (overlay_plate_info image (x0, y0, x1, y1) plate_number plate_state plate_type) =
    height image.
Proof.
  unfold overlay_plate_info.
  destruct plate_type as [[|c label]|]; cbn [truthy]; repeat split.
Qed.

(** X9: [overlay_plate_info] keeps the mode, the size and everything
    drawn before, and adds the plate rectangle, the state name 5 below
    the top of the plate area and the plate number 10 below that; a
    plate-type label is added, 12 above the bottom, exactly when the
    plate type is a non-empty string: [None] and the empty string give
    the same image. *)
Theorem X9_overlay_draws_label_only_for_non_empty_type :
  forall (image : Image) (x0 y0 x1 y1 : Z) (plate_number : string)
         (plate_state : PlateStateInfo) (plate_type : option string),
    let drawn := overlay_plate_info image (x0, y0, x1, y1) plate_number plate_state
                   plate_type in
    mode drawn = mode image /\ width drawn = width image /\
    height drawn = height image /\
    pixels drawn =
      pixels image ++ plate_overlay (x0, y0, x1, y1) plate_number plate_state ++
      match plate_type with
      | None | Some "" => []
      | Some label => [CentredText x0 x1 (y1 - 12) label "black" "arialbd.ttf" 9]
      end.
Proof.
  intros image x0 y0 x1 y1 plate_number plate_state plate_type.
  unfold overlay_plate_info, plate_overlay, paint, PLATE_PADDING, FONT_PATH,
    STATE_FONT_SIZE, PLATE_FONT_SIZE.
  destruct plate_type as [[|c label]|]; cbn [truthy mode width height pixels];
    cbv zeta; cbn [mode width height pixels]; rewrite <- !app_assoc; cbn [app];
    replace (y0 + 5 + 10) with (y0 + 15) by lia; repeat split.
Qed.

(** ** The files of the composer *)

Lemma overview_turn_image transaction_id plate_number plate_state plate_type effect
      max_vehicle_images images w :
  wp (overview_turn transaction_id plate_number plate_state plate_type effect
        max_vehicle_images images)
     (fun st w' =>
        exists img,
          st = (images ++ overview_block transaction_id max_vehicle_images,
                Some (img, the_plate_area)) /\
          single_channel_like (asset w template_path) img /\
          saved w' = saved w ++ overview_saves transaction_id max_vehicle_images img /\
          only_saves w w') w.
Proof.
  unfold overview_turn. apply wp_bind. unfold Image_open at 1, wp at 1.
  apply wp_bind. apply wp_returned.
  destruct (apply_effects_shape
              (overlay_plate_info (Image_convert RGB (asset w template_path))
                 the_plate_area plate_number plate_state plate_type) effect w)
    as (img & w1 & Hrun & Hmode & Hw & Hh & H1).
  { rewrite mode_overlay_plate_info. discriminate. }
  exists img, w1. split; [exact Hrun|].
  apply wp_bind. eapply wp_mono; [|apply save_overviews_spec].
  intros images' w2 (Hi & Hs & Ho & _). apply wp_ret.
  exists img. subst images'. split; [reflexivity|]. split; [|split].
  - destruct the_plate_area as [[[x0 y0] x1] y1] eqn:Earea.
    destruct (overlay_plate_info_shape (Image_convert RGB (asset w template_path))
                x0 y0 x1 y1 plate_number plate_state plate_type) as (_ & Hw' & Hh').
    rewrite <- Earea in Hw, Hh. unfold single_channel_like.
    rewrite Hmode, Hw, Hh. rewrite Earea, Hw', Hh'. repeat split.
  - rewrite Hs. f_equal. apply H1.
  - eapply only_saves_trans; [apply same_outputs_only_saves, H1 | exact Ho].
Qed.

(** The composer with the images of its turns: what it returns and
    saves, in terms of the image each turn of the outer loop made. *)
Lemma generate_vehicle_images_files transaction_id plate_number plate_state plate_type
      vehicle_type_distribution max_vehicle_images w :
  usable_distribution vehicle_type_distribution = true ->
  wp (generate_vehicle_images transaction_id plate_number plate_state plate_type
        vehicle_type_distribution max_vehicle_images)
     (fun images w' =>
        exists earlier final,
          List.length (earlier ++ [final]) = Z.to_nat (outer_turns w) /\
          Forall (single_channel_like (asset w template_path)) (earlier ++ [final]) /\
          images =
            List.concat (repeat (overview_block transaction_id max_vehicle_images)
                           (List.length (earlier ++ [final]))) ++
            [mkVehicleImage (plateroi_path transaction_id) "2"] /\
          saved w' = saved w ++
            List.concat (map (overview_saves transaction_id max_vehicle_images)
                           (earlier ++ [final])) ++
            [(plateroi_path transaction_id, plate_roi_of final)] /\
          only_saves w w') w.
Proof.
  intros Hu. unfold generate_vehicle_images.
  apply wp_bind, wp_random_choices_exact.
  { destruct vehicle_type_distribution; [exact Hu | reflexivity]. }
  intros vehicle_type _.
  apply wp_bind, wp_random_choices_exact; [reflexivity|]. intros effect _.
  apply wp_bind, wp_randint_2_4.
  set (w0 := advance PyRandom (advance PyRandom (advance PyRandom w))).
  assert (Hw0 : only_saves w w0 /\ saved w0 = saved w) by (repeat split).
  pose proof (outer_turns_bounds w) as Hk.
  assert (Hlen : List.length (range 1 (1 + outer_turns w)) = Z.to_nat (outer_turns w)).
  { rewrite length_range. f_equal. lia. }
  assert (Hne : range 1 (1 + outer_turns w) <> []).
  { intros E. rewrite E in Hlen. cbn [List.length] in Hlen. lia. }
  revert Hlen Hne. generalize (range 1 (1 + outer_turns w)) as turns.
  intros turns Hlen Hne. rewrite <- Hlen. clear Hlen Hk.
  pose (block := overview_block transaction_id max_vehicle_images).
  pose (I := fun (done : list Z) (st : list VehicleImage * option (Image * Box))
                 (w' : World) =>
               exists imgs,
                 fst st = List.concat (repeat block (List.length imgs)) /\
                 List.length imgs = List.length done /\
                 Forall (single_channel_like (asset w template_path)) imgs /\
                 saved w' = saved w ++
                   List.concat (map (overview_saves transaction_id max_vehicle_images) imgs) /\
                 only_saves w w' /\
                 snd st = match rev imgs with
                          | [] => None
                          | final :: _ => Some (final, the_plate_area)
                          end).
  apply wp_bind.
  eapply wp_mono;
    [| apply (wp_for_each _ I turns [] ([], None) w0) ].
  - intros [images last] w1 (imgs & Hi & Hl & Hshape & Hs & Ho & Hlast).
    cbn [app fst snd] in *.
    destruct (rev imgs) as [|final rest] eqn:Erev.
    { apply (f_equal (@List.length Image)) in Erev. rewrite length_rev, Hl in Erev.
      destruct turns; [congruence | discriminate Erev]. }
    assert (Himgs : imgs = rev rest ++ [final])
      by (rewrite <- (rev_involutive imgs), Erev; reflexivity).
    subst last. apply wp_bind. unfold Image_save at 1, wp at 1. apply wp_ret.
    exists (rev rest), final. rewrite <- Himgs.
    split; [exact Hl|]. split; [exact Hshape|]. split; [now rewrite Hi|].
    cbn [saved]. rewrite Hs, <- app_assoc.
    split; [reflexivity | repeat split; apply Ho].
  - exists []. cbn. rewrite app_nil_r. destruct Hw0 as [Ho Hs]. repeat split; auto.
    all: apply Ho.
  - intros x done [images last] w1 (imgs & Hi & Hl & Hshape & Hs & Ho & Hlast).
    cbn [fst snd] in *.
    eapply wp_mono; [|apply overview_turn_image].
    intros st w2 (img & -> & Himg & Hs2 & Ho2). unfold I. cbn [fst snd].
    exists (imgs ++ [img]).
    rewrite !length_app, rev_app_distr, map_app, concat_app. cbn [List.length rev app map].
    rewrite Nat.add_1_r, <- concat_repeat_snoc.
    split; [rewrite Hi; reflexivity|]. split; [lia|]. split; [|split; [|split]].
    + apply Forall_app. split; [exact Hshape|]. constructor; [|constructor].
      destruct Ho as (_ & Ha & _). rewrite <- Ha. exact Himg.
    + cbn [List.concat]. rewrite app_nil_r, Hs2, Hs, <- app_assoc. reflexivity.
    + eapply only_saves_trans; eassumption.
    + reflexivity.
Qed.

Lemma overview_saves_paths transaction_id max_vehicle_images img :
  map fst (overview_saves transaction_id max_vehicle_images img) =
  map image_file (overview_block transaction_id max_vehicle_images).
Proof.
  unfold overview_saves, overview_block. rewrite !map_map. reflexivity.
Qed.

Lemma concat_saves_paths transaction_id max_vehicle_images imgs :
  map fst (List.concat (map (overview_saves transaction_id max_vehicle_images) imgs)) =
  map image_file
    (List.concat (repeat (overview_block transaction_id max_vehicle_images)
                    (List.length imgs))).
Proof.
  induction imgs as [|img imgs IH]; [reflexivity|].
  cbn [map List.concat List.length repeat].
  rewrite !map_app, IH, overview_saves_paths. reflexivity.
Qed.

(** X10: the list the composer returns names exactly the files the call
    saves, in the order of the saves: one descriptor per save, with the
    path of that save.  The call writes nothing else (no batch file, no
    message, no output line). *)
Theorem X10_descriptors_name_the_saved_files :
  forall transaction_id plate_number plate_state plate_type vehicle_type_distribution
         max_vehicle_images (w : World),
    usable_distribution vehicle_type_distribution = true ->
    exists images w' saves,
      generate_vehicle_images transaction_id plate_number plate_state plate_type
        vehicle_type_distribution max_vehicle_images w = Returned images w' /\
      saved w' = saved w ++ saves /\
      map image_file images = map fst saves /\
      only_saves w w'.
Proof.
  intros transaction_id plate_number plate_state plate_type vehicle_type_distribution
         max_vehicle_images w Hu.
  destruct (proj1 (wp_returned _ _ _)
              (generate_vehicle_images_files transaction_id plate_number plate_state
                 plate_type vehicle_type_distribution max_vehicle_images w Hu))
    as (images & w' & Hrun & earlier & final & _ & _ & Hi & Hs & Ho).
  exists images, w'. eexists. split; [exact Hrun|]. split; [exact Hs|].
  split; [|exact Ho].
  rewrite Hi, (map_app image_file), (map_app fst), concat_saves_paths. reflexivity.
Qed.

Lemma X10_descriptors_name_the_saved_files_witness :
  exists images w' saves,
    generate_vehicle_images "t" "ABC1234"
      (mkPlateState "Ohio" "OH" (1 # 10) "AAA####" None) None None 3
      (world_of [0; 0; 1]%N) = Returned images w' /\
    saved w' = saved (world_of [0; 0; 1]%N) ++ saves /\
    map image_file images = map fst saves /\
    only_saves (world_of [0; 0; 1]%N) w'.
Proof.
  apply (X10_descriptors_name_the_saved_files "t" "ABC1234"
           (mkPlateState "Ohio" "OH" (1 # 10) "AAA####" None) None None 3
           (world_of [0; 0; 1]%N)).
  reflexivity.
Defined.

(** X11: what the saved files hold.  Each turn of the outer loop makes
    one image, single-channel and of the template's size, and saves that
    same image under every Overview path of the turn; the plate file is
    made from the image of the last turn -- after the effect -- by
    cropping the plate area (250, 450, 450, 500) and resizing the crop to
    400 x 100, and it is single-channel too. *)
Theorem X11_saved_files_are_single_channel_and_roi_is_last_turn_crop :
  forall transaction_id plate_number plate_state plate_type vehicle_type_distribution
         max_vehicle_images (w : World),
    usable_distribution vehicle_type_distribution = true ->
    exists images w' earlier final,
      generate_vehicle_images transaction_id plate_number plate_state plate_type
        vehicle_type_distribution max_vehicle_images w = Returned images w' /\
      List.length (earlier ++ [final]) = Z.to_nat (outer_turns w) /\
      Forall (single_channel_like (asset w template_path)) (earlier ++ [final]) /\
      saved w' = saved w ++
        List.concat (map (overview_saves transaction_id max_vehicle_images)
                       (earlier ++ [final])) ++
        [(plateroi_path transaction_id, plate_roi_of final)] /\
      mode (plate_roi_of final) = L /\
      width (plate_roi_of final) = 400%N /\ height (plate_roi_of final) = 100%N /\
      pixels (plate_roi_of final) =
        pixels final ++ [Cropped the_plate_area; Resized 400 100 "LANCZOS"].
Proof.
  intros transaction_id plate_number plate_state plate_type vehicle_type_distribution
         max_vehicle_images w Hu.
  destruct (proj1 (wp_returned _ _ _)
              (generate_vehicle_images_files transaction_id plate_number plate_state
                 plate_type vehicle_type_distribution max_vehicle_images w Hu))
    as (images & w' & Hrun & earlier & final & Hl & Hshape & _ & Hs & _).
  exists images, w', earlier, final.
  split; [exact Hrun|]. split; [exact Hl|]. split; [exact Hshape|]. split; [exact Hs|].
  apply Forall_app in Hshape. destruct Hshape as [_ Hfinal].
  inversion Hfinal as [|? ? (Hmode & _) _]. subst.
  unfold plate_roi_of, Image_resize, Image_crop, the_plate_area.
  cbn [mode width height pixels]. rewrite <- app_assoc.
  split; [exact Hmode | repeat split].
Qed.

Lemma X11_saved_files_are_single_channel_and_roi_is_last_turn_crop_witness :
  exists images w' earlier final,
    generate_vehicle_images "t" "ABC1234"
      (mkPlateState "Ohio" "OH" (1 # 10) "AAA####" None) None None 2
      (world_of [0; 0; 1]%N) = Returned images w' /\
    List.length (earlier ++ [final]) = 2%nat /\
    Forall (single_channel_like (asset (world_of [0; 0; 1]%N) template_path))
      (earlier ++ [final]) /\
    saved w' = saved (world_of [0; 0; 1]%N) ++
      List.concat (map (overview_saves "t" 2) (earlier ++ [final])) ++
      [(plateroi_path "t", plate_roi_of final)] /\
    mode (plate_roi_of final) = L /\
    width (plate_roi_of final) = 400%N /\ height (plate_roi_of final) = 100%N /\
    pixels (plate_roi_of final) =
      pixels final ++ [Cropped the_plate_area; Resized 400 100 "LANCZOS"].
Proof.
  apply (X11_saved_files_are_single_channel_and_roi_is_last_turn_crop "t" "ABC1234"
           (mkPlateState "Ohio" "OH" (1 # 10) "AAA####" None) None None 2
           (world_of [0; 0; 1]%N)).
  reflexivity.
Defined.

Lemma length_accumulate_from total ws :
  List.length (accumulate_from total ws) = List.length ws.
Proof.
  revert total. induction ws as [|x ws IH]; intros total; [reflexivity|].
  cbn [accumulate_from List.length]. now rewrite IH.
Qed.

Lemma length_accumulate ws : List.length (accumulate ws) = List.length ws.
Proof.
  destruct ws as [|x ws]; [reflexivity|].
  cbn [accumulate List.length]. now rewrite length_accumulate_from.
Qed.

(** X12: a vehicle-type dictionary that [random.choices] cannot sample
    stops the composer before it draws or saves anything: an empty
    dictionary (which is not [None], so the default is not taken) raises
    [IndexError], and a non-empty one whose weights do not add up to a
    positive total raises [ValueError]. *)
Theorem X12_unusable_distribution_raises_before_any_output :
  forall transaction_id plate_number plate_state plate_type
         (distribution : list (string * Q)) max_vehicle_images (w : World),
    usable_distribution (Some distribution) = false ->
    generate_vehicle_images transaction_id plate_number plate_state plate_type
      (Some distribution) max_vehicle_images w =
    Raised (match distribution with [] => IndexError | _ :: _ => ValueError end) w.
Proof.
  intros transaction_id plate_number plate_state plate_type distribution
         max_vehicle_images w Hu.
  unfold usable_distribution, usable_weights in Hu.
  unfold generate_vehicle_images, bind at 1, random_choices.
  assert (Hlen : (List.length (accumulate (map snd distribution)) =?
                  List.length (map fst distribution))%nat = true).
  { apply Nat.eqb_eq. now rewrite length_accumulate, !length_map. }
  rewrite Hlen in Hu |- *. cbn [andb negb] in Hu |- *.
  destruct distribution as [|entry d]; [reflexivity|].
  destruct (rev (accumulate (map snd (entry :: d)))) as [|total rest] eqn:Erev.
  { apply (f_equal (@List.length Q)) in Erev. rewrite length_rev in Erev.
    apply Nat.eqb_eq in Hlen. rewrite Hlen in Erev. discriminate Erev. }
  apply negb_false_iff in Hu. rewrite Hu. reflexivity.
Qed.

Lemma X12_unusable_distribution_raises_before_any_output_witness :
  generate_vehicle_images "t" "ABC1234"
    (mkPlateState "Ohio" "OH" (1 # 10) "AAA####" None) None (Some []) 2 world0 =
    Raised IndexError world0 /\
  generate_vehicle_images "t" "ABC1234"
    (mkPlateState "Ohio" "OH" (1 # 10) "AAA####" None) None
    (Some [("Car", 0%Q); ("SUV", 0%Q)]) 2 world0 =
    Raised ValueError world0.
Proof.
  split.
  - apply (X12_unusable_distribution_raises_before_any_output "t" "ABC1234"
             (mkPlateState "Ohio" "OH" (1 # 10) "AAA####" None) None [] 2 world0).
    reflexivity.
  - apply (X12_unusable_distribution_raises_before_any_output "t" "ABC1234"
             (mkPlateState "Ohio" "OH" (1 # 10) "AAA####" None) None
             [("Car", 0%Q); ("SUV", 0%Q)] 2 world0).
    reflexivity.
Defined.

(** ** The queue sink *)



(** ** The fields of a record *)

Lemma wp_conj {W A} (m : M W A) (P Q : A -> W -> Prop) w :
  wp m P w -> wp m Q w -> wp m (fun a w' => P a w' /\ Q a w') w.
Proof. unfold wp. destruct (m w); tauto. Qed.

Lemma wp_sample_plate_types_value info (Q : option string -> World -> Prop) w :
  In info (map snd PLATE_STATES) ->
  (forall plate_type w',
      same_outputs w w' ->
      match plate_type with
      | Some t => abbreviation info = "IL" /\
                  exists l, state_plate_types info = Some l /\ In t l
      | None => abbreviation info <> "IL"
      end ->
      Q plate_type w') ->
  wp (sample_plate_types info) Q w.
Proof.
  intros Hin H. cbn in Hin.
  destruct Hin as [<-|Hin].
  { unfold sample_plate_types. cbn [abbreviation state_plate_types String.eqb Ascii.eqb
                                      Bool.eqb].
    apply wp_bind, wp_random_choice; [discriminate|]. intros x w' Hx Hs.
    apply wp_ret, H; [exact Hs|]. split; [reflexivity|]. eexists. split; [reflexivity|].
    exact Hx. }
  repeat (destruct Hin as [<-|Hin];
          [apply wp_ret, H; [apply same_outputs_refl | cbn; discriminate]|]).
  destruct Hin.
Qed.

Lemma wp_random_date_value start_date end_date (Q : Z -> World -> Prop) w :
  start_date <= end_date ->
  (forall dt w', start_date <= dt <= end_date -> same_outputs w w' -> Q dt w') ->
  wp (random_date start_date end_date) Q w.
Proof.
  intros Hle H. apply wp_returned.
  destruct (random_date_run start_date end_date w Hle) as (dt & Hrun & Hrange & _).
  exists dt, (advance PyRandom w). split; [exact Hrun|].
  apply H; [exact Hrange | repeat split].
Qed.

Lemma wp_maybe_value {A} (value : Gen A) (P : A -> Prop)
      (Q : option A -> World -> Prop) w :
  (forall w1, same_outputs w w1 ->
              wp value (fun v w2 => P v /\ same_outputs w1 w2) w1) ->
  (forall v w',
      match v with Some a => P a | None => True end -> same_outputs w w' -> Q v w') ->
  wp (maybe value) Q w.
Proof.
  intros Hv H. unfold maybe. apply wp_bind, wp_random_random. intros r w1 H1.
  destruct (negb _).
  - apply wp_bind. eapply wp_mono; [|apply (Hv w1 H1)].
    intros v w2 [Hp H2]. apply wp_ret, H; [exact Hp|].
    eapply same_outputs_trans; eassumption.
  - apply wp_ret, H; [exact I | exact H1].
Qed.

Lemma wp_random_uniform_value a b (Q : Q -> World -> Prop) w :
  (a <= b)%Q ->
  (forall x w', (a <= x <= b)%Q -> same_outputs w w' -> Q x w') ->
  wp (random_uniform a b) Q w.
Proof.
  intros Hab H. unfold random_uniform, random_random.
  apply wp_bind, wp_bind, wp_draw. intros k w' Hs. apply wp_ret, wp_ret, H; [|exact Hs].
  fold (unit_fraction k). pose proof (unit_fraction_bounds k) as Hr.
  split; nra.
Qed.

Lemma round6_bounds (lo hi : Z) (x : Q) :
  (inject_Z lo <= x <= inject_Z hi)%Q ->
  (inject_Z lo <= round6 x <= inject_Z hi)%Q.
Proof.
  intros [Hlo Hhi]. unfold round6.
  set (y := (x * 1000000 + (1 # 2))%Q).
  assert (Hfloor_lo : lo * 1000000 <= Qfloor y).
  { rewrite <- (Qfloor_Z (lo * 1000000)). apply Qfloor_resp_le.
    subst y. rewrite inject_Z_mult. change (inject_Z 1000000) with 1000000%Q. lra. }
  assert (Hfloor_hi : Qfloor y <= hi * 1000000).
  { pose proof (Qfloor_le y) as Hf.
    assert (Hlt : (inject_Z (Qfloor y) < inject_Z (hi * 1000000 + 1))%Q).
    { rewrite inject_Z_plus, inject_Z_mult.
      change (inject_Z 1000000) with 1000000%Q. change (inject_Z 1) with 1%Q.
      subst y. lra. }
    rewrite <- Zlt_Qlt in Hlt. lia. }
  unfold Qle, inject_Z. cbn [Qnum Qden]. lia.
Qed.

Lemma length_format_04d i : 1 <= i <= 25 -> String.length (format_04d i) = 4%nat.
Proof.
  intros H.
  assert (E : exists n, (n < 25)%nat /\ i = Z.of_nat n + 1)
    by (exists (Z.to_nat (i - 1)); lia).
  destruct E as (n & Hn & ->).
  do 25 (destruct n as [|n]; [reflexivity|]). lia.
Qed.

Lemma plate_matches_configured info plate :
  In info (map snd PLATE_STATES) ->
  Forall2 matches_class (placeholders (format info)) (chars plate) ->
  plate_matches_format (format info) plate.
Proof.
  intros Hin HF.
  assert (Hall : placeholders (format info) = chars (format info)).
  { cbn in Hin. repeat (destruct Hin as [<-|Hin]; [reflexivity|]). destruct Hin. }
  rewrite Hall in HF. split; [|exact HF].
  apply Forall2_length in HF. rewrite !length_chars in HF. now symmetry.
Qed.

(** One assembled record: its fields, its image list and the files
    saved for it. *)
Lemma make_record_fields start_date end_date w :
  start_date <= end_date ->
  wp (make_record start_date end_date)
     (fun record w' =>
        plate_consistent record /\
        metadata_in_range start_date end_date record /\
        tags_well_formed record /\
        images_named_after_record record /\
        exists saves,
          saved w' = saved w ++ saves /\
          map image_file (vehicle_images record) = map fst saves /\
          only_saves w w') w.
Proof.
  intros Hle. unfold make_record.
  pose proof (same_outputs_refl w) as F.
  apply wp_bind, wp_uuid_uuid4. intros u w1 H1.
  pose proof (same_outputs_trans _ _ _ F H1) as F1. clear F H1.
  apply wp_bind, wp_random_plate_state. intros info w2 Hinfo H2.
  pose proof (same_outputs_trans _ _ _ F1 H2) as F2. clear F1 H2.
  apply wp_bind. eapply wp_mono; [|apply random_plate_number_spec].
  intros plate_number w3 [Hplate H3].
  pose proof (same_outputs_trans _ _ _ F2 H3) as F3. clear F2 H3.
  apply wp_bind, wp_sample_plate_types_value; [exact Hinfo|].
  intros plate_type w4 H4 Htype.
  pose proof (same_outputs_trans _ _ _ F3 H4) as F4. clear F3 H4.
  apply wp_bind, wp_random_randint; [lia|]. intros image_count w5 Hcount H5.
  pose proof (same_outputs_trans _ _ _ F4 H5) as F5. clear F4 H5.
  apply wp_bind.
  eapply wp_mono;
    [|apply (generate_vehicle_images_files (uuid_str u) plate_number info plate_type
               None image_count w5 eq_refl)].
  intros images w6 (earlier & final & Hturns & _ & Himages & Hsaved & Ho6).
  pose proof (outer_turns_bounds w5) as Hk.
  assert (Hpaths : map image_file images =
                   map fst (List.concat (map (overview_saves (uuid_str u) image_count)
                                           (earlier ++ [final])) ++
                            [(plateroi_path (uuid_str u), plate_roi_of final)])).
  { rewrite Himages, (map_app image_file), (map_app fst), concat_saves_paths.
    reflexivity. }
  assert (Hsaved0 : saved w6 = saved w ++
            (List.concat (map (overview_saves (uuid_str u) image_count)
                            (earlier ++ [final])) ++
             [(plateroi_path (uuid_str u), plate_roi_of final)])).
  { rewrite Hsaved. f_equal. apply F5. }
  assert (F6 : only_saves w w6)
    by (eapply only_saves_trans; [apply same_outputs_only_saves, F5 | exact Ho6]).
  clear Hsaved Ho6 F5.
  pose proof (same_outputs_refl w6) as G.
  apply wp_bind, wp_random_date_value; [exact Hle|]. intros dt w7 Hdt H7.
  pose proof (same_outputs_trans _ _ _ G H7) as G7. clear G H7.
  apply wp_bind, wp_random_randint; [lia|]. intros location w8 Hlocation H8.
  pose proof (same_outputs_trans _ _ _ G7 H8) as G8. clear G7 H8.
  apply wp_bind, wp_random_randint; [lia|]. intros location_type w9 Hlt H9.
  pose proof (same_outputs_trans _ _ _ G8 H9) as G9. clear G8 H9.
  apply wp_bind, wp_random_randint; [lia|]. intros lane w10 Hlane H10.
  pose proof (same_outputs_trans _ _ _ G9 H10) as G10. clear G9 H10.
  apply wp_bind,
    (wp_maybe_value _ (fun s => String.length s = 4%nat /\
                                exists i, 1 <= i <= 25 /\ s = format_04d i)).
  { intros wa _. apply wp_bind, wp_random_randint; [lia|]. intros i wb Hi Hb.
    apply wp_ret. split; [|exact Hb]. split; [apply length_format_04d, Hi | eauto]. }
  intros tag_agency w11 Hagency H11.
  pose proof (same_outputs_trans _ _ _ G10 H11) as G11. clear G10 H11.
  apply wp_bind,
    (wp_maybe_value _ (fun s => exists i, 1000000000 <= i <= 9999999999 /\ s = str i)).
  { intros wa _. apply wp_bind, wp_random_randint; [lia|]. intros i wb Hi Hb.
    apply wp_ret. split; [eauto | exact Hb]. }
  intros tag_number w12 Hnumber H12.
  pose proof (same_outputs_trans _ _ _ G11 H12) as G12. clear G11 H12.
  apply wp_bind, wp_random_randint; [lia|]. intros vehicle_class w13 Hvc H13.
  pose proof (same_outputs_trans _ _ _ G12 H13) as G13. clear G12 H13.
  apply wp_bind, wp_random_randint; [lia|]. intros axles w14 Haxles H14.
  pose proof (same_outputs_trans _ _ _ G13 H14) as G14. clear G13 H14.
  apply wp_bind, wp_random_randint; [lia|]. intros camera w15 Hcamera H15.
  pose proof (same_outputs_trans _ _ _ G14 H15) as G15. clear G14 H15.
  apply wp_bind, wp_random_choice; [discriminate|]. intros orientation w16 Hor H16.
  pose proof (same_outputs_trans _ _ _ G15 H16) as G16. clear G15 H16.
  apply wp_bind, wp_random_randint; [lia|]. intros direction w17 Hdir H17.
  pose proof (same_outputs_trans _ _ _ G16 H17) as G17. clear G16 H17.
  apply wp_bind, wp_random_uniform_value; [discriminate|]. intros lat w18 Hlat H18.
  pose proof (same_outputs_trans _ _ _ G17 H18) as G18. clear G17 H18.
  apply wp_bind, wp_random_uniform_value; [discriminate|]. intros lon w19 Hlon H19.
  pose proof (same_outputs_trans _ _ _ G18 H19) as G19. clear G18 H19.
  apply wp_ret. split; [|split; [|split; [|split]]].
  - exists info. cbn [PlateState PlateNumber plate_types].
    split; [exact Hinfo|]. split; [reflexivity|].
    split; [apply plate_matches_configured; assumption | exact Htype].
  - unfold metadata_in_range.
    cbn [TransactionDt LocationId LocationTypeId LaneId VehicleClassId AxleCount
           CameraId CameraOrientation DirectionId Latitude Longitude].
    repeat (split; [assumption|]).
    split; [apply (round6_bounds 40 42), Hlat | apply (round6_bounds (-88) (-86)), Hlon].
  - split; cbn [TagAgencyId TagNumber];
      [destruct tag_agency | destruct tag_number]; assumption.
  - exists (List.length (earlier ++ [final])), image_count.
    cbn [vehicle_images LaneTransId].
    split; [lia|]. split; [exact Hcount | exact Himages].
  - eexists. cbn [vehicle_images]. split; [|split; [exact Hpaths|]].
    + pose proof G19 as (_ & _ & Hs19 & _). rewrite Hs19. exact Hsaved0.
    + eapply only_saves_trans; [exact F6 | apply same_outputs_only_saves, G19].
Qed.

(** ** The records in the batch files *)

Lemma hex_width_digits width n :
  String.length (hex_width width n) = width /\
  Forall is_hex_digit (chars (hex_width width n)).
Proof.
  revert n. induction width as [|width IH]; intros n; cbn [hex_width].
  - split; [reflexivity | constructor].
  - destruct (IH (n / 16)%N) as [Hlen Hall].
    rewrite <- length_chars, chars_append, length_app, length_chars, Hlen.
    split; [cbn; lia|].
    apply Forall_app. split; [exact Hall|]. constructor; [|constructor].
    unfold is_hex_digit, hex_digit. apply nth_In.
    pose proof (N.mod_lt n 16 ltac:(discriminate)). cbn [chars list_ascii_of_string
      List.length]. lia.
Qed.

Lemma send_or_save_run batch w :
  exists file_name,
    batch_file_name file_name /\
    send_or_save batch w =
    Returned tt
      (mkWorld (tape w) (cursor (advance OsUrandom w)) (asset w) (saved w)
         (dumped w ++ [(file_name, batch)]) (sent w)
         (stdout w ++ [announcement (file_name, batch)])).
Proof.
  unfold send_or_save, USE_AZURE_SERVICE_BUS, uuid_uuid4, bind, draw, ret,
    json_dump_to, print, announcement.
  cbn [tape cursor asset saved dumped sent stdout fst].
  eexists. split; [|reflexivity].
  eexists. split; [|split; [|reflexivity]]; apply hex_width_digits.
Qed.

Lemma record_as_assembled_more start_date end_date saves more r :
  record_as_assembled start_date end_date saves r ->
  record_as_assembled start_date end_date (saves ++ more) r.
Proof.
  intros (Hp & Hm & Ht & Hi & Hincl).
  split; [exact Hp|]. split; [exact Hm|]. split; [exact Ht|]. split; [exact Hi|].
  rewrite map_app. apply incl_appl, Hincl.
Qed.

Lemma offer_records_records start_date end_date total_records batch_size w :
  start_date <= end_date ->
  wp (offer_records start_date end_date total_records batch_size)
     (records_so_far w start_date end_date batch_size (range 0 total_records)) w.
Proof.
  intros Hle. unfold offer_records.
  apply (wp_for_each _ (records_so_far w start_date end_date batch_size)
           (range 0 total_records) [] ([], 0) w).
  - exists [], []. cbn. rewrite !app_nil_r. repeat split; constructor.
  - intros i done [batch record_count] w1
           (files & saves & Hd & Hs & Ho & Hq & Ht & Ha & Hall & Hlen & Hc & Hnone
            & Hnames).
    cbn [fst snd] in *.
    apply wp_bind. eapply wp_mono; [|apply (make_record_fields _ _ w1 Hle)].
    intros record w2 (Hp & Hm & Htags & Himg & more & Hs2 & Hpaths
                      & Ht2 & Ha2 & Hd2 & Hq2 & Ho2).
    assert (Hrec : record_as_assembled start_date end_date (saves ++ more) record).
    { split; [exact Hp|]. split; [exact Hm|]. split; [exact Htags|].
      split; [exact Himg|]. rewrite map_app, Hpaths. apply incl_appr, incl_refl. }
    assert (Hall' : Forall (record_as_assembled start_date end_date (saves ++ more))
                      (List.concat (map snd files) ++ batch ++ [record])).
    { rewrite app_assoc. apply Forall_app. split.
      - eapply Forall_impl; [|exact Hall]. intros r. apply record_as_assembled_more.
      - constructor; [exact Hrec | constructor]. }
    assert (Hlen' : List.length (List.concat (map snd files) ++ batch ++ [record]) =
                    List.length (done ++ [i])).
    { rewrite app_assoc, !(length_app _ [_]). cbn [List.length]. lia. }
    assert (Hc' : record_count + 1 = Z.of_nat (List.length (done ++ [i]))).
    { rewrite length_app. cbn [List.length]. lia. }
    destruct (Z.eqb_spec (Z.of_nat (List.length (batch ++ [record]))) batch_size)
      as [Hfull|Hpart].
    + apply wp_bind. apply wp_returned.
      destruct (send_or_save_run (batch ++ [record]) w2) as (file_name & Hname & Hrun).
      do 2 eexists. split; [exact Hrun|]. apply wp_ret.
      exists (files ++ [(file_name, batch ++ [record])]), (saves ++ more).
      cbn [fst snd dumped saved stdout sent tape asset].
      rewrite !map_app, concat_app. cbn [map snd List.concat].
      rewrite !app_nil_r, Hd2, Hd, Ho2, Ho, Hs2, Hs, <- !app_assoc.
      split; [reflexivity|]. split; [reflexivity|]. split; [reflexivity|].
      split; [congruence|]. split; [congruence|]. split; [congruence|].
      split; [exact Hall'|]. split; [exact Hlen'|]. split; [exact Hc'|].
      split; [intros Hneg; rewrite length_app in Hfull; cbn [List.length] in Hfull; lia|].
      cbn [fst]. apply Forall_app. split; [exact Hnames|]. constructor; [exact Hname|].
      constructor.
    + apply wp_ret. exists files, (saves ++ more). cbn [fst snd].
      rewrite Hd2, Hd, Ho2, Ho, Hs2, Hs, <- !app_assoc.
      split; [reflexivity|]. split; [reflexivity|]. split; [reflexivity|].
      split; [congruence|]. split; [congruence|]. split; [congruence|].
      split; [exact Hall'|]. split; [exact Hlen'|]. split; [exact Hc'|].
      split; [exact Hnone | exact Hnames].
Qed.

(** The whole run, seen through its outputs. *)
Lemma generate_traffic_data_outputs start_date end_date average_daily_volume
      batch_size w :
  start_date <= end_date ->
  wp (generate_traffic_data start_date end_date average_daily_volume batch_size)
     (fun _ w' =>
        let n := Z.to_nat (average_daily_volume *
                           timedelta_days (end_date - start_date)) in
        exists files saves,
          dumped w' = dumped w ++ files /\
          saved w' = saved w ++ saves /\
          stdout w' = stdout w ++ map announcement files ++
                      [String.append "Total records generated: " (str (Z.of_nat n))] /\
          sent w' = sent w /\
          Forall (record_as_assembled start_date end_date saves)
            (List.concat (map snd files)) /\
          List.length (List.concat (map snd files)) = n /\
          (batch_size <= 0 -> (0 < n)%nat -> exists file, files = [file]) /\
          Forall batch_file_name (map fst files)) w.
Proof.
  intros Hle. unfold generate_traffic_data. apply wp_bind.
  eapply wp_mono; [|apply (offer_records_records _ _ _ _ w Hle)].
  intros [batch record_count] w1
         (files & saves & Hd & Hs & Ho & Hq & Ht & Ha & Hall & Hlen & Hc & Hnone
          & Hnames).
  cbn [fst snd] in *. cbv zeta.
  rewrite length_range in Hlen, Hc.
  replace (average_daily_volume * timedelta_days (end_date - start_date) - 0)
    with (average_daily_volume * timedelta_days (end_date - start_date)) in Hlen, Hc
    by lia.
  set (n := Z.to_nat (average_daily_volume * timedelta_days (end_date - start_date))) in *.
  subst record_count.
  destruct batch as [|record batch].
  - apply wp_bind, wp_ret. unfold print, wp.
    cbn [tape asset sent stdout dumped saved].
    rewrite app_nil_r in Hall, Hlen.
    exists files, saves. rewrite Ho, <- app_assoc.
    repeat (split; [assumption || reflexivity|]).
    split; [|exact Hnames].
    intros Hneg Hn. rewrite (Hnone Hneg) in Hlen. cbn in Hlen. lia.
  - apply wp_bind. apply wp_returned.
    destruct (send_or_save_run (record :: batch) w1) as (file_name & Hname & Hrun).
    do 2 eexists. split; [exact Hrun|]. unfold print, wp.
    cbn [tape asset sent stdout dumped saved].
    exists (files ++ [(file_name, record :: batch)]), saves.
    rewrite !map_app, concat_app. cbn [map snd List.concat].
    rewrite !app_nil_r, Hd, Ho, Hs, <- !app_assoc.
    split; [reflexivity|]. split; [reflexivity|]. split; [reflexivity|].
    split; [exact Hq|]. split; [exact Hall|]. split; [exact Hlen|].
    split; [intros Hneg _; rewrite (Hnone Hneg); cbn [app]; eauto|].
    cbn [fst]. apply Forall_app. split; [exact Hnames|]. constructor; [exact Hname|].
    constructor.
Qed.

(** X14: in every batch file of a run, every record has a plate that
    agrees with one profile of the table: [PlateState] is the profile's
    code, [PlateNumber] follows the profile's format position by
    position (same length, a letter for [A], a digit for [#]), and
    [plate_types] is an entry of the profile's plate-type list when the
    code is IL and absent otherwise. *)
Theorem X14_written_records_have_consistent_plates :
  forall (start_date end_date average_daily_volume batch_size : Z) (w : World),
    start_date <= end_date ->
    exists w' files,
      generate_traffic_data start_date end_date average_daily_volume batch_size w =
        Returned tt w' /\
      dumped w' = dumped w ++ files /\
      Forall plate_consistent (List.concat (map snd files)).
Proof.
  intros start_date end_date average_daily_volume batch_size w Hle.
  destruct (proj1 (wp_returned _ _ _)
              (generate_traffic_data_outputs start_date end_date average_daily_volume
                 batch_size w Hle))
    as ([] & w' & Hrun & files & saves & Hd & _ & _ & _ & Hall & _).
  exists w', files. split; [exact Hrun|]. split; [exact Hd|].
  eapply Forall_impl; [|exact Hall]. intros r Hr. apply Hr.
Qed.

Lemma X14_written_records_have_consistent_plates_witness :
  exists w' files,
    generate_traffic_data 0 86400000000 10 3 world0 = Returned tt w' /\
    dumped w' = dumped world0 ++ files /\
    Forall plate_consistent (List.concat (map snd files)).
Proof.
  apply (X14_written_records_have_consistent_plates 0 86400000000 10 3 world0). lia.
Defined.



Lemma length_concat_repeat {A} (block : list A) n :
  List.length (List.concat (repeat block n)) = (n * List.length block)%nat.
Proof.
  induction n as [|n IH]; [reflexivity|].
  cbn [repeat List.concat]. rewrite length_app, IH. lia.
Qed.

Lemma images_named_at_most_seven r :
  images_named_after_record r -> (List.length (vehicle_images r) <= 7)%nat.
Proof.
  intros (turns & count & Ht & Hc & ->).
  rewrite length_app, length_concat_repeat. unfold overview_block.
  rewrite length_map, length_range. cbn [List.length]. nia.
Qed.

(** X16: in every batch file of a run, every record names image files
    that the run has saved: each path in its [vehicle_images] list is
    the path of a save.  The entries are named after the record's own
    [LaneTransId] -- Overview entries of index 1 or 2, then the plate
    entry, last -- and there are at most seven of them. *)
Theorem X16_written_records_name_saved_files :
  forall (start_date end_date average_daily_volume batch_size : Z) (w : World),
    start_date <= end_date ->
    exists w' files saves,
      generate_traffic_data start_date end_date average_daily_volume batch_size w =
        Returned tt w' /\
      dumped w' = dumped w ++ files /\
      saved w' = saved w ++ saves /\
      Forall (fun r =>
                incl (map image_file (vehicle_images r)) (map fst saves) /\
                images_named_after_record r /\
                (List.length (vehicle_images r) <= 7)%nat)
        (List.concat (map snd files)).
Proof.
  intros start_date end_date average_daily_volume batch_size w Hle.
  destruct (proj1 (wp_returned _ _ _)
              (generate_traffic_data_outputs start_date end_date average_daily_volume
                 batch_size w Hle))
    as ([] & w' & Hrun & files & saves & Hd & Hs & _ & _ & Hall & _).
  exists w', files, saves. split; [exact Hrun|]. split; [exact Hd|]. split; [exact Hs|].
  eapply Forall_impl; [|exact Hall]. intros r (_ & _ & _ & Hi & Hincl).
  split; [exact Hincl|]. split; [exact Hi | apply images_named_at_most_seven, Hi].
Qed.

Lemma X16_written_records_name_saved_files_witness :
  exists w' files saves,
    generate_traffic_data 0 86400000000 10 3 world0 = Returned tt w' /\
    dumped w' = dumped world0 ++ files /\
    saved w' = saved world0 ++ saves /\
    Forall (fun r =>
              incl (map image_file (vehicle_images r)) (map fst saves) /\
              images_named_after_record r /\
              (List.length (vehicle_images r) <= 7)%nat)
      (List.concat (map snd files)).
Proof.
  apply (X16_written_records_name_saved_files 0 86400000000 10 3 world0). lia.
Defined.

(** X17: a run talks to the console and the file sink only: it prints
    one line ["Batch saved to file: <name>"] per batch file, in the
    order of the files and with the file's name, then the line with the
    total; nothing is sent to the queue. *)
Theorem X17_each_batch_file_is_announced_once :
  forall (start_date end_date average_daily_volume batch_size : Z) (w : World),
    start_date <= end_date ->
    exists w' files,
      generate_traffic_data start_date end_date average_daily_volume batch_size w =
        Returned tt w' /\
      dumped w' = dumped w ++ files /\
      stdout w' =
        stdout w ++ map announcement files ++
        [String.append "Total records generated: "
           (str (Z.of_nat (Z.to_nat (average_daily_volume *
                                     timedelta_days (end_date - start_date)))))] /\
      sent w' = sent w.
Proof.
  intros start_date end_date average_daily_volume batch_size w Hle.
  destruct (proj1 (wp_returned _ _ _)
              (generate_traffic_data_outputs start_date end_date average_daily_volume
                 batch_size w Hle))
    as ([] & w' & Hrun & files & saves & Hd & _ & Ho & Hq & _).
  exists w', files. split; [exact Hrun|]. split; [exact Hd|]. split; [exact Ho | exact Hq].
Qed.

Lemma X17_each_batch_file_is_announced_once_witness :
  exists w' files,
    generate_traffic_data 0 86400000000 10 3 world0 = Returned tt w' /\
    dumped w' = dumped world0 ++ files /\
    stdout w' =
      stdout world0 ++ map announcement files ++ ["Total records generated: 10"] /\
    sent w' = sent world0.
Proof.
  apply (X17_each_batch_file_is_announced_once 0 86400000000 10 3 world0). lia.
Defined.

(** X18: a batch size of zero or less never matches the length of the
    batch, so nothing is flushed inside the loop: a run that generates
    at least one record writes exactly one batch file, at the end, and
    it holds all the records. *)
Theorem X18_non_positive_batch_size_gives_one_file :
  forall (start_date end_date average_daily_volume batch_size : Z) (w : World),
    start_date <= end_date ->
    batch_size <= 0 ->
    0 < average_daily_volume * timedelta_days (end_date - start_date) ->
    exists w' file_name records,
      generate_traffic_data start_date end_date average_daily_volume batch_size w =
        Returned tt w' /\
      dumped w' = dumped w ++ [(file_name, records)] /\
      Z.of_nat (List.length records) =
        average_daily_volume * timedelta_days (end_date - start_date).
Proof.
  intros start_date end_date average_daily_volume batch_size w Hle Hneg Hpos.
  destruct (proj1 (wp_returned _ _ _)
              (generate_traffic_data_outputs start_date end_date average_daily_volume
                 batch_size w Hle))
    as ([] & w' & Hrun & files & saves & Hd & _ & _ & _ & _ & Hlen & Hone & _).
  destruct (Hone Hneg ltac:(lia)) as ([file_name records] & ->).
  exists w', file_name, records. split; [exact Hrun|]. split; [exact Hd|].
  cbn [map snd List.concat] in Hlen. rewrite app_nil_r in Hlen. lia.
Qed.

Lemma X18_non_positive_batch_size_gives_one_file_witness :
  exists w' file_name records,
    generate_traffic_data 0 86400000000 4 0 world0 = Returned tt w' /\
    dumped w' = dumped world0 ++ [(file_name, records)] /\
    Z.of_nat (List.length records) = 4.
Proof.
  apply (X18_non_positive_batch_size_gives_one_file 0 86400000000 4 0 world0);
    [lia | lia | reflexivity].
Defined.

(** ** The senders of [servicebus_send.py] *)

(** X19: with a sender whose batches have room for [n] messages,
    [send_batch_message] makes one [send_messages] call with exactly
    [min n 10] messages after [min (n + 1) 10] calls of [add_message]:
    the messages that do not fit are not sent in a further batch. *)
Theorem X19_batch_holds_what_fits_up_to_ten :
  forall (n : nat),
    servicebus_send.send_batch_message (servicebus_send.bus_of_capacity n) =
    Returned tt
      (servicebus_send.mkBus
         (servicebus_send.accepts (servicebus_send.bus_of_capacity n))
         (repeat servicebus_send.the_message (Nat.min (n + 1) 10))
         [repeat servicebus_send.the_message (Nat.min n 10)]).
Proof.
  intros n. unfold servicebus_send.send_batch_message.
  destruct (fill_loop_spec (range 0 10) [] (servicebus_send.bus_of_capacity n))
    as (held' & b' & k & Hrun & Hacc & Hpub & Hheld & Hbefore & Hend).
  cbn [app] in Hheld, Hbefore, Hend.
  change (List.length (range 0 10)) with 10%nat in Hend.
  unfold bind at 1, servicebus_send.create_message_batch, ret at 1.
  unfold bind at 1. rewrite Hrun. unfold servicebus_send.send_messages.
  assert (Hk : k = Nat.min n 10 /\
               servicebus_send.add_calls b' =
                 repeat servicebus_send.the_message (Nat.min (n + 1) 10)).
  { cbn [servicebus_send.bus_of_capacity servicebus_send.accepts
           servicebus_send.add_calls app] in Hbefore, Hend.
    assert (Hle : (k <= n)%nat).
    { destruct k as [|k]; [lia|]. specialize (Hbefore k ltac:(lia)).
      rewrite repeat_length in Hbefore. apply Nat.ltb_lt in Hbefore. lia. }
    destruct Hend as [(-> & Hcalls)|(Hlt & Hfull & Hcalls)].
    - rewrite Hcalls. split; [lia | f_equal; lia].
    - rewrite repeat_length in Hfull. apply Nat.ltb_ge in Hfull.
      rewrite Hcalls. split; [lia | f_equal; lia]. }
  destruct Hk as [-> Hcalls]. rewrite <- Hcalls, <- Hheld.
  cbn [servicebus_send.bus_of_capacity servicebus_send.published] in Hpub.
  rewrite Hacc, Hpub. reflexivity.
Qed.


(** ** Names of the batch files and draws of the plate sampler *)

(** X21: every batch file of a run is written into the transaction-data
    directory under a name of the form [batch_<h>.json], where [h] is 32
    lower-case hexadecimal digits (the [hex] of a fresh [uuid4]). *)
Theorem X21_batch_files_are_named_batch_hex_json :
  forall (start_date end_date average_daily_volume batch_size : Z) (w : World),
    start_date <= end_date ->
    exists w' files,
      generate_traffic_data start_date end_date average_daily_volume batch_size w =
        Returned tt w' /\
      dumped w' = dumped w ++ files /\
      Forall batch_file_name (map fst files).
Proof.
  intros start_date end_date average_daily_volume batch_size w Hle.
  destruct (proj1 (wp_returned _ _ _)
              (generate_traffic_data_outputs start_date end_date average_daily_volume
                 batch_size w Hle))
    as ([] & w' & Hrun & files & saves & Hd & _ & _ & _ & _ & _ & _ & Hnames).
  exists w', files. split; [exact Hrun|]. split; [exact Hd | exact Hnames].
Qed.

Lemma X21_batch_files_are_named_batch_hex_json_witness :
  exists w' files,
    generate_traffic_data 0 86400000000 10 3 world0 = Returned tt w' /\
    dumped w' = dumped world0 ++ files /\
    Forall batch_file_name (map fst files).
Proof.
  apply (X21_batch_files_are_named_batch_hex_json 0 86400000000 10 3 world0). lia.
Defined.

Lemma bind_run {W A B} (m : M W A) (k : A -> M W B) w a w1 :
  m w = Returned a w1 -> bind m k w = k a w1.
Proof. intros H. unfold bind. now rewrite H. Qed.

Lemma random_choice_draws_once {A} (seq : list A) w :
  seq <> [] -> exists x, random_choice seq w = Returned x (advance PyRandom w).
Proof.
  intros H. destruct seq as [|first others]; [congruence|].
  eexists. reflexivity.
Qed.

Lemma plate_loop_draws (cs : list ascii) :
  forall plate_number w,
  exists plate,
    for_each cs
      (fun char plate_number =>
         if Ascii.eqb char "A" then
           c <- random_choice (chars uppercase) ;; ret (add_char plate_number c)
         else if Ascii.eqb char "#" then
           c <- random_choice (chars digits) ;; ret (add_char plate_number c)
         else ret plate_number)
      plate_number w =
    Returned plate
      (advance_by PyRandom (List.length (filter is_placeholder cs)) w).
Proof.
  induction cs as [|c cs IH]; intros plate_number w.
  - exists plate_number. reflexivity.
  - cbn [for_each filter]. unfold is_placeholder at 1. cbv beta.
    destruct (Ascii.eqb c "A") eqn:EA; cbn [orb].
    + destruct (random_choice_draws_once (chars uppercase) w ltac:(discriminate))
        as (x & Hx).
      destruct (IH (add_char plate_number x) (advance PyRandom w)) as (plate & Hrest).
      exists plate.
      rewrite (bind_run _ _ w (add_char plate_number x) (advance PyRandom w))
        by (rewrite (bind_run _ _ w x (advance PyRandom w) Hx); reflexivity).
      rewrite Hrest. cbn [List.length]. unfold advance_by.
      now rewrite Nat.iter_succ_r.
    + destruct (Ascii.eqb c "#") eqn:EH; cbn [orb].
      * destruct (random_choice_draws_once (chars digits) w ltac:(discriminate))
          as (x & Hx).
        destruct (IH (add_char plate_number x) (advance PyRandom w)) as (plate & Hrest).
        exists plate.
        rewrite (bind_run _ _ w (add_char plate_number x) (advance PyRandom w))
          by (rewrite (bind_run _ _ w x (advance PyRandom w) Hx); reflexivity).
        rewrite Hrest. cbn [List.length]. unfold advance_by.
        now rewrite Nat.iter_succ_r.
      * rewrite (bind_run _ _ w plate_number w) by reflexivity. apply IH.
Qed.

(** X22: [random_plate_number] takes exactly one draw of Python's
    [random] per placeholder of the format and none for any other
    character; it touches nothing else of the world.  A format without
    placeholders, the empty one included, gives the empty plate without
    drawing. *)
Theorem X22_plate_sampler_draws_once_per_placeholder :
  forall (format_string : string) (w : World),
  exists plate,
    random_plate_number format_string w =
      Returned plate
        (advance_by PyRandom (List.length (placeholders format_string)) w) /\
    (placeholders format_string = [] -> plate = "").
Proof.
  intros format_string w. unfold random_plate_number, placeholders.
  destruct (plate_loop_draws (chars format_string) "" w) as (plate & Hrun).
  exists plate. split; [exact Hrun|].
  intros Hnone.
  destruct (proj1 (wp_returned _ _ _) (random_plate_number_spec format_string w))
    as (plate' & w' & Hrun' & HF & _).
  unfold random_plate_number in Hrun'. rewrite Hrun in Hrun'.
  injection Hrun' as <- _. unfold placeholders in HF. rewrite Hnone in HF.
  apply Forall2_length in HF. rewrite length_chars in HF.
  destruct plate; [reflexivity | discriminate HF].
Qed.

Lemma X22_plate_sampler_draws_once_per_placeholder_witness :
  (exists plate,
      random_plate_number "A-#" world0 = Returned plate (advance_by PyRandom 2 world0)) /\
  random_plate_number "2024-" world0 = Returned "" world0.
Proof.
  split.
  - destruct (X22_plate_sampler_draws_once_per_placeholder "A-#" world0)
      as (plate & Hrun & _).
    exists plate. exact Hrun.
  - destruct (X22_plate_sampler_draws_once_per_placeholder "2024-" world0)
      as (plate & Hrun & Hempty).
    rewrite (Hempty eq_refl) in Hrun. exact Hrun.
Defined.

(** ** The vehicle type the composer samples *)

(** X23: the composer samples a vehicle type and never uses it: for any
    two usable vehicle-type distributions (the default included), the
    call returns the same list and leaves the same world -- the same
    files, the same entropy consumed. *)
Theorem X23_vehicle_type_distribution_has_no_effect :
  forall transaction_id plate_number plate_state plate_type
         (distribution1 distribution2 : option (list (string * Q)))
         max_vehicle_images (w : World),
    usable_distribution distribution1 = true ->
    usable_distribution distribution2 = true ->
    generate_vehicle_images transaction_id plate_number plate_state plate_type
      distribution1 max_vehicle_images w =
    generate_vehicle_images transaction_id plate_number plate_state plate_type
      distribution2 max_vehicle_images w.
Proof.
  intros transaction_id plate_number plate_state plate_type distribution1 distribution2
         max_vehicle_images w H1 H2.
  unfold generate_vehicle_images.
  set (chosen := fun d : option (list (string * Q)) =>
                   match d with
                   | Some d => d
                   | None => default_vehicle_type_distribution
                   end).
  assert (Hrun : forall d, usable_distribution d = true ->
                 exists x, random_choices (map fst (chosen d)) (map snd (chosen d)) w =
                           Returned x (advance PyRandom w)).
  { intros d Hd.
    destruct (random_choices_run (map fst (chosen d)) (map snd (chosen d)) w)
      as (x & _ & Hx); [destruct d; [exact Hd | reflexivity] | eauto]. }
  destruct (Hrun distribution1 H1) as (x1 & Hx1).
  destruct (Hrun distribution2 H2) as (x2 & Hx2).
  rewrite (bind_run _ _ w x1 (advance PyRandom w) Hx1).
  rewrite (bind_run _ _ w x2 (advance PyRandom w) Hx2).
  reflexivity.
Qed.

Lemma X23_vehicle_type_distribution_has_no_effect_witness :
  generate_vehicle_images "t" "ABC1234"
    (mkPlateState "Ohio" "OH" (1 # 10) "AAA####" None) None None 2 world0 =
  generate_vehicle_images "t" "ABC1234"
    (mkPlateState "Ohio" "OH" (1 # 10) "AAA####" None) None
    (Some [("Bus", 1%Q)]) 2 world0.
Proof.
  apply (X23_vehicle_type_distribution_has_no_effect "t" "ABC1234"
           (mkPlateState "Ohio" "OH" (1 # 10) "AAA####" None) None None
           (Some [("Bus", 1%Q)]) 2 world0); reflexivity.
Defined.

(** ** The script's entry point *)

(** X24: run as a script at a time not before 2024-12-18, the generator
    writes one batch file per whole day elapsed since that date, each
    with exactly 10 records, and never a partial file: the daily volume
    and the default batch size are both 10. *)
Theorem X24_script_writes_one_full_batch_per_day :
  forall (now : Z) (w : World),
    datetime_2024_12_18 <= now ->
    exists w' flushes,
      script_main now w = Returned tt w' /\
      flushes_between w w' flushes /\
      Z.of_nat (List.length flushes) = timedelta_days (now - datetime_2024_12_18) /\
      Forall (fun batch => List.length batch = 10%nat) flushes.
Proof.
  intros now w Hle. unfold script_main. cbv zeta.
  pose proof (timedelta_days_nonneg _ _ Hle) as Hd.
  destruct (proj1 (wp_returned _ _ _)
              (generate_traffic_data_spec datetime_2024_12_18 now 10 10 w Hle))
    as ([] & w' & Hrun & _ & _ & flushes & Hfl & _ & _ & Hsz).
  specialize (Hsz ltac:(lia)).
  set (days := timedelta_days (now - datetime_2024_12_18)) in *.
  rewrite Z2Nat.id in Hsz by lia.
  replace (10 * days / 10) with days in Hsz by (rewrite Z.mul_comm, Z.div_mul; lia).
  replace (10 * days mod 10) with 0 in Hsz by (rewrite Z.mul_comm, Z.mod_mul; lia).
  cbn [Z.eqb] in Hsz. rewrite app_nil_r in Hsz.
  exists w', flushes. split; [exact Hrun|]. split; [exact Hfl|]. split.
  - apply (f_equal (@List.length Z)) in Hsz.
    rewrite length_map, repeat_length in Hsz. lia.
  - apply Forall_forall. intros batch Hin.
    assert (Hten : In (Z.of_nat (List.length batch)) (repeat 10 (Z.to_nat days))).
    { rewrite <- Hsz. apply in_map_iff. eauto. }
    apply repeat_spec in Hten. lia.
Qed.

Lemma X24_script_writes_one_full_batch_per_day_witness :
  exists w' flushes,
    script_main 1734652800000000 world0 = Returned tt w' /\
    flushes_between world0 w' flushes /\
    Z.of_nat (List.length flushes) = 2 /\
    Forall (fun batch => List.length batch = 10%nat) flushes.
Proof.
  apply (X24_script_writes_one_full_batch_per_day 1734652800000000 world0).
  unfold datetime_2024_12_18. lia.
Defined.

(** X25: when the number of records to generate is zero or negative --
    an end date less than a day after the start date or before it, a
    zero volume, or a negative volume with dates in order -- the run
    raises nothing and generates nothing: it draws no randomness, writes
    no file, and prints a total of 0. *)
Theorem X25_non_positive_total_generates_nothing :
  forall (start_date end_date average_daily_volume batch_size : Z) (w : World),
    average_daily_volume * timedelta_days (end_date - start_date) <= 0 ->
    generate_traffic_data start_date end_date average_daily_volume batch_size w =
    Returned tt
      (mkWorld (tape w) (cursor w) (asset w) (saved w) (dumped w) (sent w)
         (stdout w ++ ["Total records generated: 0"])).
Proof.
  intros start_date end_date average_daily_volume batch_size w Htotal.
  unfold generate_traffic_data, offer_records, bind.
  rewrite range_empty by lia.
  cbn [for_each]. unfold ret, print.
  cbn [tape cursor asset saved dumped sent stdout]. reflexivity.
Qed.

Lemma X25_non_positive_total_generates_nothing_witness :
  generate_traffic_data 1734566400000000 1734480000000000 10 10 world0 =
  Returned tt
    (mkWorld (tape world0) (cursor world0) (asset world0) (saved world0)
       (dumped world0) (sent world0)
       (stdout world0 ++ ["Total records generated: 0"])).
Proof.
  apply (X25_non_positive_total_generates_nothing
           1734566400000000 1734480000000000 10 10 world0).
  vm_compute. discriminate.
Defined.
